(** * TableImageGenerator (src/table.py): a shallow embedding and its properties

    The development follows the layout of the Python module:

    - [Py]: the fragment of Python the module relies on (exceptions,
      values, [str()], [int()], [float()], [==], truthiness, ordered
      dictionaries), with the platform-dependent builtins gathered in the
      class [PyEnv];
    - [Cell], [Generator], the drawing surface as a log of events, and the
      state-and-exception monad [M] in which the methods that mutate [self]
      or draw are written;
    - one definition per method of [TableImageGenerator], under the
      method's own name;
    - the properties, grouped by component.

    Modelling conventions.  A Python [int] is a [Z] (kept below the
    interpreter's limit on the digits of a converted integer); a [float] is a
    [spec_float] (IEEE 754 binary64 datum); a [str] is a [string] of
    bytes (UTF-8); a [dict] whose iteration order the code observes is an
    association list in insertion order with pairwise distinct keys; the
    [set] of valid columns is a [gset string].  A raised exception is the
    [Raise] outcome; [try/except] is written with the handlers spelled
    out. *)

From Stdlib Require Import ZArith String Ascii List Lia Bool.
From Stdlib Require Import Floats.SpecFloat.
From stdpp Require Import base option list strings gmap pretty.

Local Open Scope string_scope.
Local Open Scope list_scope.
Local Open Scope nat_scope.
#[local] Set Warnings "-clear-no-such-hyp".

(* ===================================================================== *)
(** * The Python fragment                                                  *)
(* ===================================================================== *)

Module Py.

(** The exception classes the module can meet. *)
Inductive exn : Set :=
| ValueError | TypeError | OverflowError | AttributeError
| IndexError | ZeroDivisionError | OSError.

#[global] Instance exn_eq_dec : EqDecision exn.
Proof. solve_decision. Defined.

(** Outcome of evaluating an expression: a value, or a raised exception. *)
Inductive result (A : Type) : Type :=
| Ok (a : A)
| Raise (e : exn).
Arguments Ok {A} a.
Arguments Raise {A} e.

#[global] Instance result_ret : MRet result := @Ok.
#[global] Instance result_bind : MBind result := λ A B f m,
  match m with Ok a => f a | Raise e => Raise e end.
#[global] Instance result_fmap : FMap result := λ A B f m,
  match m with Ok a => Ok (f a) | Raise e => Raise e end.

Definition is_ok {A} (r : result A) : bool :=
  match r with Ok _ => true | Raise _ => false end.

(** [except (ValueError, TypeError)]: the two classes the formatter catches. *)
Definition value_or_type_error (e : exn) : bool :=
  match e with ValueError | TypeError => true | _ => false end.

(** [mapM] over a list, stopping at the first exception, as a [for] loop
    whose body may raise. *)
Fixpoint mapM {A B} (f : A → result B) (l : list A) : result (list B) :=
  match l with
  | [] => Ok []
  | x :: l' => y ← f x; ys ← mapM f l'; Ok (y :: ys)
  end.

(** Python values that occur in records and rule sets. *)
Inductive pyval : Set :=
| VNone
| VBool (b : bool)
| VInt (z : Z)
| VFloat (f : spec_float)
| VStr (s : string).

(** Builtins whose result depends on the interpreter or on the platform
    rather than on this module: parsing of numerals held in a [str],
    [repr] of a float, and the local-time rendering of a timestamp. *)
Class PyEnv : Type := {
  (** [int(s)] for a [str]; [None] stands for [ValueError]. *)
  str_to_int : string → option Z;
  (** [float(s) == 0] for a [str]; [None] stands for [ValueError]. *)
  str_float_is_zero : string → option bool;
  (** [str(x)] for a [float]. *)
  float_repr : spec_float → string;
  (** [datetime.fromtimestamp(ts).strftime(fmt)]. *)
  strftime_local : string → Z → result string
}.

Section Builtins.
Context `{PyEnv}.

(** [str(value)].  For an [int] this is the decimal numeral; the
    interpreter refuses the conversion ([ValueError]) beyond a number of
    digits (4300 by default since CPython 3.11), a limit the integers of
    the model are taken to respect. *)
Definition py_str (value : pyval) : string :=
  match value with
  | VNone => "None"
  | VBool true => "True"
  | VBool false => "False"
  | VInt z => pretty z
  | VFloat f => float_repr f
  | VStr s => s
  end.

(** Truncation of a finite float towards zero. *)
Definition float_trunc (s : bool) (m : positive) (e : Z) : Z :=
  let a := if (0 <=? e)%Z then (Z.pos m * 2 ^ e)%Z
           else (Z.pos m / 2 ^ (- e))%Z in
  if s then (- a)%Z else a.

(** [int(value)] *)
Definition py_int (value : pyval) : result Z :=
  match value with
  | VNone => Raise TypeError
  | VBool b => Ok (if b then 1 else 0)%Z
  | VInt z => Ok z
  | VFloat (S754_zero _) => Ok 0%Z
  | VFloat (S754_finite s m e) => Ok (float_trunc s m e)
  | VFloat (S754_infinity _) => Raise OverflowError
  | VFloat S754_nan => Raise ValueError
  | VStr s => match str_to_int s with Some z => Ok z | None => Raise ValueError end
  end.

(** The least magnitude at which [float(n)] overflows: the midpoint
    between the largest double and [2^1024] rounds up (ties to even). *)
Definition float_overflow_bound : Z := (2 ^ 1024 - 2 ^ 970)%Z.

(** [float(value) == 0] *)
Definition py_float_is_zero (value : pyval) : result bool :=
  match value with
  | VNone => Raise TypeError
  | VBool b => Ok (negb b)
  | VInt z => if (float_overflow_bound <=? Z.abs z)%Z then Raise OverflowError
              else Ok (z =? 0)%Z
  | VFloat (S754_zero _) => Ok true
  | VFloat _ => Ok false
  | VStr s => match str_float_is_zero s with Some b => Ok b | None => Raise ValueError end
  end.

(** A float compared with an integer: exact comparison. *)
Definition float_eq_Z (f : spec_float) (z : Z) : bool :=
  match f with
  | S754_zero _ => (z =? 0)%Z
  | S754_finite s m e =>
      let sm := if s then Z.neg m else Z.pos m in
      if (0 <=? e)%Z then (z =? sm * 2 ^ e)%Z else (z * 2 ^ (- e) =? sm)%Z
  | S754_infinity _ | S754_nan => false
  end.

Definition bool_to_Z (b : bool) : Z := if b then 1%Z else 0%Z.

(** [a == b] on the values above ([bool] is a subclass of [int]). *)
Definition py_eq (a b : pyval) : bool :=
  match a, b with
  | VNone, VNone => true
  | VStr s, VStr t => String.eqb s t
  | VBool x, VBool y => Bool.eqb x y
  | VBool x, VInt z | VInt z, VBool x => (bool_to_Z x =? z)%Z
  | VInt x, VInt y => (x =? y)%Z
  | VBool x, VFloat f | VFloat f, VBool x => float_eq_Z f (bool_to_Z x)
  | VInt z, VFloat f | VFloat f, VInt z => float_eq_Z f z
  | VFloat f, VFloat g => SFeqb f g
  | _, _ => false
  end.

(** [x in l] for a list [l]: identity or equality with some element;
    on these values identity implies equality except for NaN, which
    none of the lists below contains. *)
Definition py_in (x : pyval) (l : list pyval) : bool := existsb (py_eq x) l.

End Builtins.

(** [value is None] *)
Definition is_None (value : pyval) : bool :=
  match value with VNone => true | _ => false end.

(** Truthiness of an optional string ([None] and [''] are falsy). *)
Definition str_truthy (o : option string) : bool :=
  match o with Some s => negb (String.eqb s "") | None => false end.

(** Truthiness of an optional list or dict ([None] and the empty
    container are falsy). *)
Definition seq_truthy {A} (o : option (list A)) : bool :=
  match o with Some (_ :: _) => true | _ => false end.

(** ** Ordered dictionaries *)

Definition dict (V : Type) : Type := list (string * V).

Fixpoint dict_get {V} (d : dict V) (k : string) : option V :=
  match d with
  | [] => None
  | (k', v) :: d' => if String.eqb k' k then Some v else dict_get d' k
  end.

(** [d.get(k, dflt)] *)
Definition dict_get_default {V} (d : dict V) (k : string) (dflt : V) : V :=
  default dflt (dict_get d k).

(** [d.values()] *)
Definition dict_values {V} (d : dict V) : list V := d.*2.

(** [d.items()] is the association list itself. *)
Definition dict_items {V} (d : dict V) : list (string * V) := d.

End Py.
Export Py.

(* ===================================================================== *)
(** * Data model                                                           *)
(* ===================================================================== *)

(** [class Cell]: a logical grid unit. *)
Record Cell : Set := mkCell { text : string; rowspan : Z; colspan : Z }.

(** [Cell(text)] with the default spans. *)
Definition Cell_of_text (t : string) : Cell := mkCell t 1 1.

(** A header entry as [_build_table_data] emits it and as it comes back
    from [json.loads]: the dictionary [{"text", "colspan", "rowspan"}], a
    bare string, or [null] (a merge-continuation marker).  [json.dumps]
    followed by [json.loads] is the identity on these entries and on the
    rows of strings, so the serialised form is not modelled. *)
Inductive raw_cell : Set :=
| RDict (t : string) (colspan_ rowspan_ : Z)
| RStr (s : string)
| RNull.

Record table_data : Set := mkTable {
  td_headers : list (list raw_cell);
  td_data : list (list string)
}.

(** The mutable attributes of a [TableImageGenerator]; [fonts] records the
    size at which the two faces were last loaded.  [font_path], [padding],
    [styles] and [color_mapping] are never assigned after [__init__] and
    appear as constants. *)
Record Generator : Set := mkGen {
  cell_width : option Z;
  cell_height : Z;
  font_size : Z;
  fonts : Z
}.

(** [__init__] *)
Definition init_generator : Generator :=
  {| cell_width := None; cell_height := 60; font_size := 24; fonts := 24 |}.

Module styles.
Definition header_color : string := "#94A3B8".
Definition header_text_color : string := "#FFFFFF".
Definition row_colors (i : Z) : string :=
  if (i mod 2 =? 0)%Z then "#FFFFFF" else "#F9FAFB".
Definition border_color : string := "#E5E7EB".
Definition summary_color : string := "#E2E8F0".
Definition text_color : string := "#111827".
Definition empty_text_color : string := "#9CA3AF".
End styles.

Definition color_mapping : dict string :=
  [("绿灯", "#059669"); ("红灯", "#DC2626"); ("黄灯", "#D97706")].

(** ** The drawing surface

    The imaging library is an external collaborator; what the module asks
    of it is recorded as a sequence of events, oldest first. *)
Record paint : Set := mkPaint {
  p_x : Z; p_y : Z; p_width : Z; p_height : Z;
  p_text : string;
  p_fill : string;       (* background colour *)
  p_ink : string;        (* text colour *)
  p_bold : bool;
  p_highlight : bool     (* the [highlight] argument of [_draw_cell] *)
}.

Inductive save_target : Set := TempTable | TempBanner | FinalFile.

Inductive event : Set :=
| NewImage (width height : Z)
| Draw (p : paint)
| Save (target : save_target)
| Merge.

Record State : Set := mkState { gen : Generator; canvas : list event }.

(** ** The monad of methods: state ([self] and the surface) and exceptions.
    A raised exception leaves the state as it was when it was raised. *)
Definition M (A : Type) : Type := State → result A * State.

#[global] Instance M_ret : MRet M := λ A a s, (Ok a, s).
#[global] Instance M_bind : MBind M := λ A B f m s,
  match m s with
  | (Ok a, s') => f a s'
  | (Raise e, s') => (Raise e, s')
  end.

Definition raise {A} (e : exn) : M A := λ s, (Raise e, s).
Definition lift {A} (r : result A) : M A := λ s, (r, s).
Definition get_self : M Generator := λ s, (Ok (gen s), s).
Definition set_self (g : Generator) : M unit :=
  λ s, (Ok tt, {| gen := g; canvas := canvas s |}).
Definition emit (e : event) : M unit :=
  λ s, (Ok tt, {| gen := gen s; canvas := canvas s ++ [e] |}).

(** [enumerate(l)], counting from [i]. *)
Fixpoint enumerate_from {A} (i : nat) (l : list A) : list (nat * A) :=
  match l with
  | [] => []
  | x :: l' => (i, x) :: enumerate_from (S i) l'
  end.
Definition enumerate {A} (l : list A) : list (nat * A) := enumerate_from 0 l.

(** [range(n)] for an integer [n] (empty when [n <= 0]). *)
Definition range (n : Z) : list nat := seq 0 (Z.to_nat n).

(** [needle in hay] on strings. *)
Fixpoint is_substring (needle hay : string) : bool :=
  String.prefix needle hay ||
  match hay with
  | EmptyString => false
  | String _ hay' => is_substring needle hay'
  end.

(* ===================================================================== *)
(** * class TableImageGenerator                                            *)
(* ===================================================================== *)

Section TableImageGenerator.
Context `{PyEnv}.

(** ** Value Formatter: [_process_value] *)

(** The [try] block under [if format_type:].  [Some r] is a [return] (or
    an exception leaving the method); [None] means control falls out of the
    [if] to the zero handling. *)
Definition format_branch (value : pyval) (format_type : option string)
  : option (result string) :=
  if str_truthy format_type then
    let handler (r : result string) : result string :=
      match r with
      | Raise e => if value_or_type_error e then Ok (py_str value) else Raise e
      | Ok s => Ok s
      end in
    match py_int value with
    | Ok timestamp =>
        if bool_decide (format_type = Some "to_format") then
          Some (handler (strftime_local "%Y-%m-%d %H:%M:%S" timestamp))
        else if bool_decide (format_type = Some "to_day") then
          Some (handler (strftime_local "%m月%d日" timestamp))
        else None
    | Raise e => Some (handler (Raise e))
    end
  else None.

(** The [try] block under [if replace_zero:]. *)
Definition zero_branch (value : pyval) (replace_zero : bool)
  : option (result string) :=
  if replace_zero then
    match py_float_is_zero value with
    | Ok true => Some (Ok "-")
    | Ok false => None
    | Raise e => if value_or_type_error e then None else Some (Raise e)
    end
  else None.

Definition _process_value (value : pyval) (replace_zero : bool)
    (format_type : option string) : result string :=
  if is_None value || py_eq value (VStr "") then Ok "-"
  else match format_branch value format_type with
       | Some r => r
       | None =>
           match zero_branch value replace_zero with
           | Some r => r
           | None => Ok (py_str value)
           end
       end.

(** ** Grid Geometry Calculator: [_calculate_table_size] *)

(** [curr_cols] of one header row. *)
Definition row_colspan (row : list (option Cell)) : Z :=
  foldl (λ curr_cols cell,
           match cell with
           | Some c => (curr_cols + colspan c)%Z
           | None => curr_cols
           end) 0%Z row.

Definition header_cols (headers : list (list (option Cell))) : Z :=
  foldl (λ acc row, Z.max acc (row_colspan row)) 0%Z headers.

(** [max(len(row) for row in data)]; [ValueError] on an empty sequence. *)
Definition max_row_len (data : list (list string)) : result Z :=
  match data with
  | [] => Raise ValueError
  | row :: rest =>
      Ok (foldl (λ m r, Z.max m (Z.of_nat (length r))) (Z.of_nat (length row)) rest)
  end.

Definition MIN_CELL_WIDTH : Z := 120.
Definition MAX_CELL_WIDTH : Z := 240.
Definition target_total_width : Z := 1920 - 2 * 40.

(** The width chosen for [total_cols] columns. *)
Definition fit_cell_width (total_cols : Z) : Z :=
  let suggested_width := (target_total_width / total_cols)%Z in
  if (MAX_CELL_WIDTH <? suggested_width)%Z then MAX_CELL_WIDTH
  else if (suggested_width <? MIN_CELL_WIDTH)%Z then MIN_CELL_WIDTH
  else suggested_width.

Definition _calculate_table_size (headers : list (list (option Cell)))
    (data : list (list string)) : M (Z * Z) :=
  longest ← lift (max_row_len data);
  let total_cols := Z.max (header_cols headers) longest in
  if (total_cols =? 0)%Z then raise ZeroDivisionError else
  self ← get_self;
  let w := fit_cell_width total_cols in
  set_self {| cell_width := Some w; cell_height := cell_height self;
              font_size := font_size self; fonts := fonts self |};;
  let total_width := (total_cols * w + 1)%Z in
  let total_height :=
    ((Z.of_nat (length headers) + Z.of_nat (length data)) * cell_height self + 1)%Z in
  mret (total_width, total_height).

(** ** Table Data Builder: [_build_table_data] *)

(** The values counted as empty when columns are pruned. *)
Definition empty_markers : list pyval :=
  [VNone; VStr ""; VStr "-"; VInt 0; VStr "0"; VFloat (S754_zero false); VStr "0.0"].

(** [row.get(col)] *)
Definition row_get (row : dict pyval) (col : string) : pyval :=
  dict_get_default row col VNone.

Definition valid_columns (data : list (dict pyval))
    (columns_order : option (list string)) : gset string :=
  if seq_truthy columns_order then
    foldl (λ valid row,
             foldl (λ valid col,
                      if py_in (row_get row col) empty_markers then valid
                      else {[col]} ∪ valid)
                   valid (default [] columns_order))
          ∅ data
  else ∅.

Definition filtered_columns (data : list (dict pyval))
    (columns_order : option (list string)) : option (list string) :=
  if seq_truthy columns_order then
    Some (filter (λ col, col ∈ valid_columns data columns_order)
                 (default [] columns_order))
  else None.

(** [len(filtered_columns)]; [TypeError] when it is [None]. *)
Definition len_filtered (filtered : option (list string)) : result Z :=
  match filtered with
  | Some cols => Ok (Z.of_nat (length cols))
  | None => Raise TypeError
  end.

(** The loop [for i in range(span)] that counts [valid_span]. *)
Fixpoint count_valid (filtered : option (list string)) (current_position : Z)
    (indices : list nat) (valid_span : Z) : result Z :=
  match indices with
  | [] => Ok valid_span
  | i :: rest =>
      n ← len_filtered filtered;
      count_valid filtered current_position rest
        (if (current_position + Z.of_nat i <? n)%Z then (valid_span + 1)%Z
         else valid_span)
  end.

(** The loop [for header, span in layer.items()]. *)
Fixpoint layer_items (filtered : option (list string)) (items : list (string * Z))
    (current_position : Z) (header_row : list raw_cell)
  : result (Z * list raw_cell) :=
  match items with
  | [] => Ok (current_position, header_row)
  | (header, span) :: rest =>
      valid_span ← count_valid filtered current_position (range span) 0%Z;
      let header_row :=
        if (0 <? valid_span)%Z then
          header_row ++ [RDict header valid_span 1]
                     ++ replicate (Z.to_nat (valid_span - 1)) RNull
        else header_row in
      layer_items filtered rest (current_position + span)%Z header_row
  end.

(** The loop [for layer in multi_columns]; [current_position] is set once,
    before the loop, and carried from one layer to the next. *)
Fixpoint layer_rows (filtered : option (list string)) (multi_columns : list (dict Z))
    (current_position : Z) (headers : list (list raw_cell))
  : result (list (list raw_cell)) :=
  match multi_columns with
  | [] => Ok headers
  | layer :: rest =>
      '(current_position, header_row) ←
          layer_items filtered (dict_items layer) current_position [];
      layer_rows filtered rest current_position
        (match header_row with [] => headers | _ => headers ++ [header_row] end)
  end.

(** The label of a column in the row of column names.  [column_display.get]
    raises [AttributeError] when [column_display] is [None]. *)
Definition display_name (column_display : option (dict string)) (col : string)
  : result string :=
  match column_display with
  | None => Raise AttributeError
  | Some cd =>
      let display_value := dict_get cd col in
      if bool_decide (display_value ∈ [Some "to_day"; Some "to_format"])
      then Ok col
      else Ok (dict_get_default cd col col)
  end.

Definition name_cell (column_display : option (dict string)) (col : string)
  : result raw_cell :=
  display_name ← display_name column_display col;
  Ok (RDict display_name 1 1).

Definition build_headers (filtered : option (list string))
    (multi_columns : option (list (dict Z)))
    (column_display : option (dict string)) : result (list (list raw_cell)) :=
  if seq_truthy multi_columns then
    headers ← layer_rows filtered (default [] multi_columns) 0%Z [];
    if seq_truthy column_display && seq_truthy filtered then
      last_row ← mapM (name_cell column_display) (default [] filtered);
      Ok (headers ++ [last_row])
    else Ok headers
  else
    match filtered with
    | None => Raise TypeError            (* [for col in None] *)
    | Some cols =>
        header_row ← mapM (name_cell column_display) cols;
        Ok [header_row]
    end.

Definition build_row (filtered : option (list string))
    (column_display : option (dict string)) (replace_zero : bool)
    (row : dict pyval) : result (list string) :=
  if seq_truthy filtered then
    mapM (λ col,
            let value := dict_get_default row col (VStr "") in
            let format_type :=
              if seq_truthy column_display
              then dict_get (default [] column_display) col else None in
            _process_value value replace_zero format_type)
         (default [] filtered)
  else Ok (py_str <$> dict_values row).

Definition _build_table_data (data : list (dict pyval))
    (columns_order : option (list string))
    (multi_columns : option (list (dict Z)))
    (column_display : option (dict string)) (replace_zero : bool)
  : result table_data :=
  let filtered := filtered_columns data columns_order in
  headers ← build_headers filtered multi_columns column_display;
  rows ← mapM (build_row filtered column_display replace_zero) data;
  Ok {| td_headers := headers; td_data := rows |}.

(** ** Cell Renderer: [_draw_cell] *)

(** The [cell] argument is a [Cell] or a plain string. *)
Inductive cell_arg : Set := ACell (c : Cell) | AStr (s : string).

(** [self.cell_width] where an integer is needed. *)
Definition self_cell_width : M Z :=
  self ← get_self;
  match cell_width self with
  | Some w => mret w
  | None => raise TypeError
  end.

(** Paints one cell.  The method assigns the processed text to
    [cell.text]; the cell so updated is returned. *)
Definition _draw_cell (x y : Z) (cell : cell_arg) (is_header : bool)
    (row_idx : Z) (color_column column_name : string)
    (replace_zero highlight : bool) : M Cell :=
  let cell := match cell with AStr s => Cell_of_text s | ACell c => c end in
  w ← self_cell_width;
  self ← get_self;
  let width := (w * colspan cell)%Z in
  let height := (cell_height self * rowspan cell)%Z in
  t ← lift (_process_value (VStr (text cell)) replace_zero None);
  let cell := mkCell t (rowspan cell) (colspan cell) in
  let bg_color :=
    if is_header then styles.header_color
    else if highlight then styles.summary_color
    else styles.row_colors row_idx in
  let text_color :=
    if is_header then styles.header_text_color
    else if String.eqb t "-" then styles.empty_text_color
    else if String.eqb column_name color_column then
      match dict_get color_mapping t with
      | Some c => c
      | None => styles.text_color
      end
    else styles.text_color in
  emit (Draw {| p_x := x; p_y := y; p_width := width; p_height := height;
                p_text := t; p_fill := bg_color; p_ink := text_color;
                p_bold := is_header; p_highlight := highlight |});;
  mret cell.

(** ** Table Compositor: [_create_table] *)

Definition to_cell (raw : raw_cell) : option Cell :=
  match raw with
  | RDict t colspan_ rowspan_ => Some (mkCell t rowspan_ colspan_)
  | RStr s => if String.eqb s "" then None else Some (Cell_of_text s)
  | RNull => None
  end.

(** The loop that turns [raw_headers] into rows of [Cell] objects. *)
Definition cells_of (raw_headers : list (list raw_cell)) : list (list (option Cell)) :=
  (λ row : list raw_cell, to_cell <$> row) <$> raw_headers.

(** [int(x * scale_factor)] with [scale_factor = dpi / 72].  The quotient
    is taken exactly: for the two resolutions the module uses (150 and
    300) the double nearest to [dpi / 72] lies above it by less than one
    part in [2^52], so the truncated product is the truncated exact
    quotient for every size the canvas can have. *)
Definition scaled (dpi x : Z) : Z := (x * dpi) `quot` 72.

(** [drawn_cells[row_idx][col_idx]]; [None] stands for [IndexError]. *)
Definition drawn_at (drawn_cells : list (list bool)) (row_idx col_idx : nat)
  : option bool :=
  row ← drawn_cells !! row_idx; row !! col_idx.

(** The two nested loops that mark the footprint of a cell, with the
    bounds test of the source. *)
Definition mark_span (drawn_cells : list (list bool)) (row_idx col_idx : nat)
    (cell : Cell) : list (list bool) :=
  foldl (λ drawn r,
           foldl (λ drawn c,
                    if bool_decide (row_idx + r < length drawn
                                    ∧ col_idx + c < length (default [] (drawn !! 0)))
                    then <[row_idx + r :=
                             <[col_idx + c := true]> (default [] (drawn !! (row_idx + r)))]>
                           drawn
                    else drawn)
                 drawn (range (colspan cell)))
        drawn_cells (range (rowspan cell)).

(** One header row, from column [col_idx] on.  Returns the tracking
    matrix and the row with the texts as [_draw_cell] leaves them. *)
Fixpoint draw_header_row (row_idx col_idx : nat) (header_row : list (option Cell))
    (drawn_cells : list (list bool)) : M (list (list bool) * list (option Cell)) :=
  match header_row with
  | [] => mret (drawn_cells, [])
  | cell :: rest =>
      '(drawn_cells, cell) ←
         match cell with
         | None => mret (drawn_cells, None)
         | Some c =>
             match drawn_at drawn_cells row_idx col_idx with
             | None => raise IndexError
             | Some true => mret (drawn_cells, Some c)
             | Some false =>
                 let drawn_cells := mark_span drawn_cells row_idx col_idx c in
                 w ← self_cell_width;
                 self ← get_self;
                 c ← _draw_cell (Z.of_nat col_idx * w) (Z.of_nat row_idx * cell_height self)
                       (ACell c) true 0 "" "" false false;
                 mret (drawn_cells, Some c)
             end
         end;
      '(drawn_cells, rest) ← draw_header_row row_idx (S col_idx) rest drawn_cells;
      mret (drawn_cells, cell :: rest)
  end.

(** The header rows from row [row_idx] on. *)
Fixpoint draw_header_rows (row_idx : nat) (headers : list (list (option Cell)))
    (drawn_cells : list (list bool))
  : M (list (list bool) * list (list (option Cell))) :=
  match headers with
  | [] => mret (drawn_cells, [])
  | header_row :: rest =>
      '(drawn_cells, header_row) ← draw_header_row row_idx 0 header_row drawn_cells;
      '(drawn_cells, rest) ← draw_header_rows (S row_idx) rest drawn_cells;
      mret (drawn_cells, header_row :: rest)
  end.

(** [next(i for i, cell in enumerate(headers[-1]) if cell and cell.text ==
    col_name)]; [None] stands for [IndexError] (no header row) and for
    [StopIteration] (no such cell). *)
Definition find_header_index (headers : list (list (option Cell)))
    (col_name : string) : option nat :=
  last_row ← last headers;
  fst <$> list_find (λ cell : option Cell, text <$> cell = Some col_name) last_row.

(** The loop over [highlight_rules.items()] for one data row. *)
Fixpoint should_highlight (headers : list (list (option Cell)))
    (rules : list (string * pyval)) (row : list string) : bool :=
  match rules with
  | [] => false
  | (col_name, keyword) :: rest =>
      match find_header_index headers col_name with
      | None => should_highlight headers rest row
      | Some col_idx =>
          match row !! col_idx with
          | None => should_highlight headers rest row        (* IndexError *)
          | Some v =>
              if is_substring (py_str keyword) v then true   (* break *)
              else should_highlight headers rest row
          end
      end
  end.

(** [next((cell.text for cell in headers[-1] if cell and
    headers[-1].index(cell) == col_idx), '')].  Every [Cell] of the row is
    an object of its own and [Cell] defines no [__eq__], so [index(cell)]
    is the position of [cell]. *)
Definition column_name_at (headers : list (list (option Cell))) (col_idx : nat)
  : result string :=
  match last headers with
  | None => Raise IndexError
  | Some last_row =>
      Ok (default ""
            (head (omap (λ '(i, cell),
                           match cell with
                           | Some c => if (i =? col_idx)%nat then Some (text c) else None
                           | None => None
                           end)
                        (enumerate last_row))))
  end.

(** The cells of one data row, from column [col_idx] on. *)
Fixpoint draw_data_cells (headers : list (list (option Cell))) (y : Z)
    (row_idx col_idx : nat) (color_column : string)
    (replace_zero should_highlight : bool) (row : list string) : M unit :=
  match row with
  | [] => mret tt
  | cell_text :: rest =>
      col_name ← lift (column_name_at headers col_idx);
      w ← self_cell_width;
      self ← get_self;
      _draw_cell (Z.of_nat col_idx * w) (y + Z.of_nat row_idx * cell_height self)
        (AStr cell_text) false (Z.of_nat row_idx) color_column col_name
        replace_zero should_highlight;;
      draw_data_cells headers y row_idx (S col_idx) color_column
        replace_zero should_highlight rest
  end.

(** The data rows, from row [row_idx] on. *)
Fixpoint draw_data_rows (headers : list (list (option Cell)))
    (rules : list (string * pyval)) (row_idx : nat) (color_column : string)
    (replace_zero : bool) (rows : list (list string)) : M unit :=
  match rows with
  | [] => mret tt
  | row :: rest =>
      let highlight := should_highlight headers rules row in
      self ← get_self;
      let y := (Z.of_nat (length headers) * cell_height self)%Z in
      draw_data_cells headers y row_idx 0 color_column replace_zero highlight row;;
      draw_data_rows headers rules (S row_idx) color_column replace_zero rest
  end.

(** What the caller gets back: the canvas, known here by its size. *)
Record Image : Set := mkImage { img_width : Z; img_height : Z }.

(** [self.fonts = {...}] at the current [font_size] (a failing load falls
    back to the default face). *)
Definition load_fonts : M unit :=
  self ← get_self;
  set_self {| cell_width := cell_width self; cell_height := cell_height self;
              font_size := font_size self; fonts := font_size self |}.

Definition _create_table (table : table_data) (color_column : string)
    (replace_zero : bool) (highlight_rules : option (dict pyval)) (dpi : Z)
  : M Image :=
  let headers := cells_of (td_headers table) in
  let rows := td_data table in
  '(base_width, base_height) ← _calculate_table_size headers rows;
  let width := scaled dpi base_width in
  let height := scaled dpi base_height in
  emit (NewImage width height);;
  self ← get_self;
  let original_cell_width := cell_width self in
  let original_cell_height := cell_height self in
  let original_font_size := font_size self in
  w ← self_cell_width;
  set_self {| cell_width := Some (scaled dpi w);
              cell_height := scaled dpi (cell_height self);
              font_size := scaled dpi (font_size self);
              fonts := fonts self |};;
  load_fonts;;
  w ← self_cell_width;
  (if (w =? 0)%Z then raise ZeroDivisionError else mret tt);;
  let drawn_cells :=
    replicate (length headers) (replicate (Z.to_nat (width / w)) false) in
  '(_, headers) ← draw_header_rows 0 headers drawn_cells;
  let rules := default [] highlight_rules in
  draw_data_rows headers rules 0 color_column replace_zero rows;;
  self ← get_self;
  set_self {| cell_width := original_cell_width;
              cell_height := original_cell_height;
              font_size := original_font_size;
              fonts := fonts self |};;
  load_fonts;;
  mret {| img_width := width; img_height := height |}.

(** ** Render entry point: [create_table_image]

    [banner] stands for the test [banner_path and
    os.path.exists(banner_path)]; the banner strip and the merge are the
    imaging library's work and appear as events only. *)
Definition create_table_image (data : list (dict pyval))
    (columns_order : option (list string)) (banner : bool)
    (color_column : string) (multi_columns : option (list (dict Z)))
    (column_display : option (dict string)) (replace_zero : bool)
    (highlight_rules : option (dict pyval)) : M unit :=
  let dpi := 150%Z in
  table_data ← lift (_build_table_data data columns_order multi_columns
                       column_display replace_zero);
  _create_table table_data color_column replace_zero highlight_rules dpi;;
  emit (Save TempTable);;
  if banner then emit (Save TempBanner);; emit Merge;; emit (Save FinalFile)
  else emit (Save FinalFile).

End TableImageGenerator.

(* ===================================================================== *)
(** * A reference environment                                              *)
(* ===================================================================== *)

(** An instance of [PyEnv] on which the definitions compute: numerals in
    ASCII, the local time zone set to UTC.  The general statements below
    hold for every environment; this one serves the worked examples. *)
Module RefEnv.

Definition is_space (a : ascii) : bool :=
  let n := nat_of_ascii a in
  ((9 <=? n) && (n <=? 13) || (28 <=? n) && (n <=? 32))%nat.

Definition digit_of (a : ascii) : option Z :=
  let n := nat_of_ascii a in
  if ((48 <=? n) && (n <=? 57))%nat then Some (Z.of_nat (n - 48)) else None.

Fixpoint lstrip (l : list ascii) : list ascii :=
  match l with
  | a :: l' => if is_space a then lstrip l' else l
  | [] => []
  end.

Definition strip (l : list ascii) : list ascii := rev (lstrip (rev (lstrip l))).

(** [digit (["_"] digit)*]: the digits read, most significant first, and
    what follows them.  [after_digit] tells whether an underscore may come
    next. *)
Fixpoint digitpart (l : list ascii) (after_digit : bool) (acc : list Z)
  : option (list Z * list ascii) :=
  match l with
  | a :: l' =>
      match digit_of a with
      | Some d => digitpart l' true (acc ++ [d])
      | None =>
          if after_digit && Ascii.eqb a "_" then
            match l' with
            | b :: _ => if digit_of b is Some _ then digitpart l' false acc else None
            | [] => None
            end
          else if after_digit then Some (acc, l) else None
      end
  | [] => if after_digit then Some (acc, []) else None
  end.

Definition digits_value (ds : list Z) : Z := foldl (λ n d, (10 * n + d)%Z) 0%Z ds.

Definition split_sign (l : list ascii) : bool * list ascii :=
  match l with
  | a :: l' => if Ascii.eqb a "-" then (true, l')
               else if Ascii.eqb a "+" then (false, l') else (false, l)
  | [] => (false, [])
  end.

(** [int(s)], base ten. *)
Definition ref_str_to_int (s : string) : option Z :=
  let '(neg, body) := split_sign (strip (list_ascii_of_string s)) in
  match digitpart body false [] with
  | Some (ds, []) => Some (if neg then - digits_value ds else digits_value ds)%Z
  | _ => None
  end.

Definition lower (a : ascii) : ascii :=
  let n := nat_of_ascii a in
  if ((65 <=? n) && (n <=? 90))%nat then ascii_of_nat (n + 32) else a.

(** The exponent part [("e" | "E") ["+" | "-"] digitpart], if any. *)
Definition exponent (l : list ascii) : option Z :=
  match l with
  | [] => Some 0%Z
  | a :: l' =>
      if Ascii.eqb (lower a) "e" then
        let '(neg, body) := split_sign l' in
        match digitpart body false [] with
        | Some (ds, []) => Some (if neg then - digits_value ds else digits_value ds)%Z
        | _ => None
        end
      else None
  end.

(** Whether [mant * 10 ^ e10] rounds to zero in binary64: it does when it
    is at most half the least subnormal, [2 ^ -1075]. *)
Definition rounds_to_zero (mant e10 : Z) : bool :=
  (mant =? 0)%Z || ((e10 <? 0)%Z && (mant * 2 ^ 1075 <=? 10 ^ (- e10))%Z).

(** [float(s) == 0]. *)
Definition ref_str_float_is_zero (s : string) : option bool :=
  let '(_, body) := split_sign (strip (list_ascii_of_string s)) in
  let word := string_of_list_ascii (map lower body) in
  if bool_decide (word ∈ ["inf"; "infinity"; "nan"]) then Some false else
  let finish (ds fs : list Z) (rest : list ascii) :=
    e ← exponent rest;
    Some (rounds_to_zero (digits_value (ds ++ fs)) (e - Z.of_nat (length fs))) in
  let fraction (ds : list Z) (rest : list ascii) :=
    match rest with
    | a :: rest' =>
        if Ascii.eqb a "." then
          match digitpart rest' false [] with
          | Some (fs, rest'') => finish ds fs rest''
          | None => match ds with [] => None | _ => finish ds [] rest' end
          end
        else match ds with [] => None | _ => finish ds [] rest end
    | [] => match ds with [] => None | _ => finish ds [] [] end
    end in
  match digitpart body false [] with
  | Some (ds, rest) => fraction ds rest
  | None => fraction [] body
  end.

Fixpoint dropwhile_zero (l : list ascii) : list ascii :=
  match l with
  | a :: l' => if Ascii.eqb a "0" then dropwhile_zero l' else l
  | [] => []
  end.

(** The decimal expansion of a float, in full.  It is Python's [repr]
    for the finite floats between [1e-4] and [1e16] whose exact value
    has at most fifteen significant decimal digits ([5.0], [2.5],
    [0.125], ...): no shorter numeral reads back as such a float.  For any
    other float ([0.1], whose exact value has 55 digits) [repr] is the
    shortest numeral that reads back as the float, which this is not; the
    worked examples hold no such float. *)
Definition ref_float_repr (f : spec_float) : string :=
  match f with
  | S754_zero s => if s then "-0.0" else "0.0"
  | S754_infinity s => if s then "-inf" else "inf"
  | S754_nan => "nan"
  | S754_finite s m e =>
      let sign := if s then "-" else "" in
      if (0 <=? e)%Z then sign +:+ pretty (Z.pos m * 2 ^ e)%Z +:+ ".0"
      else
        let k := (- e)%Z in
        let whole := (Z.pos m / 2 ^ k)%Z in
        let frac := pretty ((Z.pos m mod 2 ^ k) * 5 ^ k)%Z in
        let padded :=
          replicate (Z.to_nat k - String.length frac) "0"%char
          ++ list_ascii_of_string frac in
        let trimmed := rev (dropwhile_zero (rev padded)) in
        sign +:+ pretty whole +:+ "." +:+
        string_of_list_ascii (match trimmed with [] => ["0"%char] | _ => trimmed end)
  end.

(** Days since 1970-01-01 to the proleptic Gregorian date. *)
Definition civil_from_days (days : Z) : Z * Z * Z :=
  let z := (days + 719468)%Z in
  let era := (z / 146097)%Z in
  let doe := (z - era * 146097)%Z in
  let yoe := ((doe - doe / 1460 + doe / 36524 - doe / 146096) / 365)%Z in
  let doy := (doe - (365 * yoe + yoe / 4 - yoe / 100))%Z in
  let mp := ((5 * doy + 2) / 153)%Z in
  let d := (doy - (153 * mp + 2) / 5 + 1)%Z in
  let m := if (mp <? 10)%Z then (mp + 3)%Z else (mp - 9)%Z in
  let y := (yoe + era * 400 + (if (m <=? 2)%Z then 1 else 0))%Z in
  (y, m, d).

Fixpoint zero_pad (width : nat) (s : string) : string :=
  match width with
  | O => s
  | S w => if (String.length s <? width)%nat then zero_pad w ("0" +:+ s) else s
  end.

Definition pad (width : nat) (n : Z) : string := zero_pad width (pretty n).

(** [datetime.fromtimestamp(ts).strftime(fmt)] in UTC on a 64-bit
    platform with the GNU C library, for the two formats of the module
    (any other format is returned as it stands).  A timestamp that does
    not fit [time_t] is an [OverflowError]; one whose year does not fit
    the [int] field of [struct tm] makes [localtime] fail, an [OSError];
    a date outside the years 1 to 9999 is a [ValueError].  The year is
    printed as that library prints [%Y], without padding. *)
Definition ref_strftime (fmt : string) (ts : Z) : result string :=
  let '(y, m, d) := civil_from_days (ts / 86400) in
  let secs := (ts mod 86400)%Z in
  if ((ts <? - 2 ^ 63) || (2 ^ 63 <=? ts))%Z then Raise OverflowError
  else if ((y - 1900 <? - 2 ^ 31) || (2 ^ 31 <=? y - 1900))%Z then Raise OSError
  else if ((y <? 1) || (9999 <? y))%Z then Raise ValueError
  else if String.eqb fmt "%Y-%m-%d %H:%M:%S" then
    Ok (pretty y +:+ "-" +:+ pad 2 m +:+ "-" +:+ pad 2 d +:+ " " +:+
        pad 2 (secs / 3600) +:+ ":" +:+ pad 2 (secs mod 3600 / 60) +:+ ":" +:+
        pad 2 (secs mod 60))
  else if String.eqb fmt "%m月%d日" then
    Ok (pad 2 m +:+ "月" +:+ pad 2 d +:+ "日")
  else Ok fmt.

#[export] Instance ref_env : PyEnv := {|
  str_to_int := ref_str_to_int;
  str_float_is_zero := ref_str_float_is_zero;
  float_repr := ref_float_repr;
  strftime_local := ref_strftime
|}.

End RefEnv.

(* ===================================================================== *)
(** * Vocabulary of the statements                                         *)
(* ===================================================================== *)

(** The [strftime] pattern of a format kind: the source knows the kinds
    ['to_format'] and ['to_day'] and no other. *)
Definition format_pattern (format_type : option string) : option string :=
  if bool_decide (format_type = Some "to_format") then Some "%Y-%m-%d %H:%M:%S"
  else if bool_decide (format_type = Some "to_day") then Some "%m月%d日"
  else None.

(** The sum of the colspans of the real cells of a header row. *)
Definition row_sum (row : list (option Cell)) : Z :=
  foldr Z.add 0%Z (colspan <$> omap id row).

(** The largest element of a non-empty list of integers. *)
Definition largest (l : list Z) : Z :=
  match l with
  | [] => 0%Z
  | x :: l' => foldr Z.max x l'
  end.

Definition clamp (lo hi x : Z) : Z := Z.min hi (Z.max lo x).

(** [self] with its cell width replaced. *)
Definition with_cell_width (w : option Z) (g : Generator) : Generator :=
  {| cell_width := w; cell_height := cell_height g;
     font_size := font_size g; fonts := fonts g |}.

(** A column is retained when some record holds, under its key, a value
    that is not counted as empty. *)
Definition retains (data : list (dict pyval)) (col : string) : bool :=
  existsb (λ row, negb (py_in (row_get row col) empty_markers)) data.


(** No layer of a multi-level header declares a positive span. *)
Definition no_positive_span (multi_columns : list (dict Z)) : Prop :=
  Forall (Forall (λ item : string * Z, (item.2 ≤ 0)%Z)) multi_columns.

(** The text [_draw_cell] shows for a string: the placeholder for the
    empty string and, under [replace_zero], for a numeral equal to zero. *)
Definition display_text `{PyEnv} (replace_zero : bool) (t : string) : string :=
  if String.eqb t "" then "-"
  else if replace_zero && bool_decide (str_float_is_zero t = Some true) then "-"
  else t.

(** What [_draw_cell] paints, [w] being the current cell width. *)
Definition paint_of `{PyEnv} (g : Generator) (w x y : Z) (cell : Cell)
    (is_header : bool) (row_idx : Z) (color_column column_name : string)
    (replace_zero highlight : bool) : paint :=
  let t := display_text replace_zero (text cell) in
  {| p_x := x; p_y := y;
     p_width := w * colspan cell; p_height := cell_height g * rowspan cell;
     p_text := t;
     p_fill := if is_header then styles.header_color
               else if highlight then styles.summary_color
               else styles.row_colors row_idx;
     p_ink := if is_header then styles.header_text_color
              else if String.eqb t "-" then styles.empty_text_color
              else if String.eqb column_name color_column then
                match dict_get color_mapping t with
                | Some c => c
                | None => styles.text_color
                end
              else styles.text_color;
     p_bold := is_header; p_highlight := highlight |}.

(** A header cell after it has been painted. *)
Definition painted `{PyEnv} (cell : Cell) : Cell :=
  mkCell (display_text false (text cell)) (rowspan cell) (colspan cell).

Definition painted_row `{PyEnv} (row : list (option Cell)) : list (option Cell) :=
  (λ cell : option Cell, painted <$> cell) <$> row.

(** The anchors of a header grid: its real cells with their grid
    positions, in traversal order. *)
Fixpoint row_anchors (row_idx col_idx : nat) (row : list (option Cell))
  : list (nat * nat * Cell) :=
  match row with
  | [] => []
  | Some c :: rest => (row_idx, col_idx, c) :: row_anchors row_idx (S col_idx) rest
  | None :: rest => row_anchors row_idx (S col_idx) rest
  end.

Fixpoint anchors (row_idx : nat) (headers : list (list (option Cell)))
  : list (nat * nat * Cell) :=
  match headers with
  | [] => []
  | row :: rest => row_anchors row_idx 0 row ++ anchors (S row_idx) rest
  end.

(** The footprint of an anchor covers the grid coordinate [(r, c)]. *)
Definition covers (r c : nat) (a : nat * nat * Cell) : Prop :=
  let '(i, j, cell) := a in
  (Z.of_nat i ≤ Z.of_nat r < Z.of_nat i + rowspan cell)%Z
  ∧ (Z.of_nat j ≤ Z.of_nat c < Z.of_nat j + colspan cell)%Z.

#[global] Instance covers_dec r c a : Decision (covers r c a).
Proof. destruct a as [[i j] cell]. unfold covers. apply _. Defined.

(** The number of anchors whose footprint covers [(r, c)]. *)
Definition cover_count (headers : list (list (option Cell))) (r c : nat) : nat :=
  length (filter (covers r c) (anchors 0 headers)).

(** The paint event of a header anchor. *)
Definition header_paint `{PyEnv} (g : Generator) (w : Z) (a : nat * nat * Cell)
  : event :=
  let '(i, j, cell) := a in
  Draw (paint_of g w (Z.of_nat j * w) (Z.of_nat i * cell_height g) cell
          true 0 "" "" false false).

(** A header row made of blocks: a real cell of row span 1 followed by
    one continuation marker for each further column it spans. *)
Inductive tiled : list (option Cell) → Prop :=
| tiled_nil : tiled []
| tiled_block (t : string) (k : nat) (rest : list (option Cell)) :
    tiled rest →
    tiled (Some (mkCell t 1 (Z.of_nat (S k))) :: replicate k None ++ rest).

(** A tracking matrix all of whose rows have [W] entries. *)
Definition rect (W : nat) (drawn : list (list bool)) : Prop :=
  Forall (λ row, length row = W) drawn.

(** The number of columns of a built table, as the Grid Geometry
    Calculator counts them. *)
Definition total_cols_of (headers : list (list (option Cell)))
    (data : list (list string)) : Z :=
  Z.max (header_cols headers) (largest ((Z.of_nat ∘ length) <$> data)).

(** A computation that leaves [self] as it found it, whether it returns
    or raises. *)
Definition keeps_self {A} (m : M A) : Prop := ∀ s, gen (m s).2 = gen s.

(** The [Cell] that [_draw_cell] works on. *)
Definition arg_cell (cell : cell_arg) : Cell :=
  match cell with AStr s => Cell_of_text s | ACell c => c end.

(** The length of row [i] of a header grid (0 when there is no such row). *)
Definition row_len (headers : list (list (option Cell))) (i : nat) : nat :=
  from_option length 0 (headers !! i).

(** The width of the tracking matrix [drawn_cells] that [_create_table]
    allocates: the scaled canvas width over the scaled cell width. *)
Definition matrix_width (dpi : Z) (headers : list (list (option Cell)))
    (data : list (list string)) : nat :=
  let n := total_cols_of headers data in
  let w := fit_cell_width n in
  Z.to_nat (scaled dpi (n * w + 1) / scaled dpi w).

(** The column name a data cell is drawn under ([''] when the lookup in
    the last header row finds no real cell at that position). *)
Definition column_label (headers : list (list (option Cell))) (col_idx : nat)
  : string :=
  match column_name_at headers col_idx with
  | Ok name => name
  | Raise _ => ""
  end.

(** What is painted for the cells of one data row, from column
    [col_idx] on. *)
Fixpoint data_paints `{PyEnv} (g : Generator) (w : Z)
    (headers : list (list (option Cell))) (y : Z) (row_idx col_idx : nat)
    (color_column : string) (replace_zero highlight : bool)
    (row : list string) : list paint :=
  match row with
  | [] => []
  | cell_text :: rest =>
      paint_of g w (Z.of_nat col_idx * w) (y + Z.of_nat row_idx * cell_height g)
        (Cell_of_text cell_text) false (Z.of_nat row_idx) color_column
        (column_label headers col_idx) replace_zero highlight
      :: data_paints g w headers y row_idx (S col_idx) color_column
           replace_zero highlight rest
  end.

(** The arguments of one call of the render entry point. *)
Record render_args : Type := mkArgs {
  a_data : list (dict pyval);
  a_columns_order : option (list string);
  a_banner : bool;
  a_color_column : string;
  a_multi_columns : option (list (dict Z));
  a_column_display : option (dict string);
  a_replace_zero : bool;
  a_highlight_rules : option (dict pyval)
}.

Definition render `{PyEnv} (a : render_args) : M unit :=
  create_table_image (a_data a) (a_columns_order a) (a_banner a)
    (a_color_column a) (a_multi_columns a) (a_column_display a)
    (a_replace_zero a) (a_highlight_rules a).

(** The table the builder makes of the arguments of a call. *)
Definition built `{PyEnv} (a : render_args) : result table_data :=
  _build_table_data (a_data a) (a_columns_order a) (a_multi_columns a)
    (a_column_display a) (a_replace_zero a).

(** The cell width the Grid Geometry Calculator chooses for a table. *)
Definition table_cell_width (td : table_data) : Z :=
  clamp 120 240 (1840 / total_cols_of (cells_of (td_headers td)) (td_data td)).

(** What is painted for the data rows, from row [row_idx] on. *)
Fixpoint rows_paints `{PyEnv} (g : Generator) (w : Z)
    (headers : list (list (option Cell))) (rules : list (string * pyval))
    (row_idx : nat) (color_column : string) (replace_zero : bool)
    (rows : list (list string)) : list paint :=
  match rows with
  | [] => []
  | row :: rest =>
      data_paints g w headers (Z.of_nat (length headers) * cell_height g)
        row_idx 0 color_column replace_zero (should_highlight headers rules row) row
      ++ rows_paints g w headers rules (S row_idx) color_column replace_zero rest
  end.

(** [self] during a render pass at resolution [dpi] over [n] columns, and
    after it. *)
Definition scaled_self (dpi n : Z) (g : Generator) : Generator :=
  {| cell_width := Some (scaled dpi (fit_cell_width n));
     cell_height := scaled dpi (cell_height g);
     font_size := scaled dpi (font_size g);
     fonts := scaled dpi (font_size g) |}.

Definition restored_self (n : Z) (g : Generator) : Generator :=
  {| cell_width := Some (fit_cell_width n);
     cell_height := cell_height g;
     font_size := font_size g;
     fonts := font_size g |}.

(** ** Colours: [_hex_to_rgb] *)

(** The value of a hexadecimal digit. *)
Definition hex_digit_value (a : ascii) : option Z :=
  let n := nat_of_ascii a in
  if (48 <=? n) && (n <=? 57) then Some (Z.of_nat (n - 48))
  else if (97 <=? n) && (n <=? 102) then Some (Z.of_nat (n - 87))
  else if (65 <=? n) && (n <=? 70) then Some (Z.of_nat (n - 55))
  else None.

(** Hexadecimal digits up to the end of the text, single underscores
    allowed between two digits. *)
Fixpoint hex_digits (l : list ascii) (after_digit : bool) (acc : Z) : option Z :=
  match l with
  | [] => if after_digit then Some acc else None
  | a :: l' =>
      match hex_digit_value a with
      | Some d => hex_digits l' true (16 * acc + d)%Z
      | None =>
          if after_digit && Ascii.eqb a "_" then
            match l' with
            | b :: _ => if hex_digit_value b is Some _
                        then hex_digits l' false acc else None
            | [] => None
            end
          else None
      end
  end.

(** [int(s, 16)] on ASCII text; [None] stands for [ValueError].  White
    space around the numeral, a sign, and the prefix [0x] (with one
    underscore after it) are accepted as the interpreter accepts them. *)
Definition int_base16 (s : string) : option Z :=
  let '(neg, body) := RefEnv.split_sign (RefEnv.strip (list_ascii_of_string s)) in
  let body :=
    match body with
    | zero :: x :: rest =>
        if Ascii.eqb zero "0" && Ascii.eqb (RefEnv.lower x) "x" then
          match rest with
          | u :: rest' => if Ascii.eqb u "_" then rest' else rest
          | [] => rest
          end
        else body
    | _ => body
    end in
  match hex_digits body false 0 with
  | Some n => Some (if neg then - n else n)%Z
  | None => None
  end.

(** [hex_color.lstrip('#')] *)
Fixpoint lstrip_hash (s : string) : string :=
  match s with
  | String a s' => if Ascii.eqb a "#" then lstrip_hash s' else s
  | EmptyString => s
  end.

(** [tuple(int(hex_color[i:i+2], 16) for i in (0, 2, 4))] after the
    leading [#] are removed; a slice reaching past the end is cut short. *)
Definition _hex_to_rgb (hex_color : string) : result (Z * Z * Z) :=
  let hex_color := lstrip_hash hex_color in
  let component (i : nat) : result Z :=
    match int_base16 (substring i 2 hex_color) with
    | Some n => Ok n
    | None => Raise ValueError
    end in
  r ← component 0; g ← component 2; b ← component 4; Ok (r, g, b).

(** ** Further vocabulary *)

(** [k] characters [#]. *)
Fixpoint hashes (k : nat) : string :=
  match k with
  | O => EmptyString
  | S k' => String "#" (hashes k')
  end.

(** Every character. *)
Definition all_ascii : list ascii := ascii_of_nat <$> seq 0 256.

(** Whether two characters that are hexadecimal digits read, as a text
    of two characters, as the number they spell in base sixteen. *)
Definition hex_pair_ok (a b : ascii) : bool :=
  match hex_digit_value a, hex_digit_value b with
  | Some va, Some vb =>
      bool_decide (int_base16 (String a (String b EmptyString))
                   = Some (16 * va + vb)%Z)
      && negb (Ascii.eqb a "#")
  | _, _ => true
  end.

(** The spans declared by the entries of a layer, summed. *)
Definition declared_span (items : list (string * Z)) : Z :=
  foldr (λ item acc, (item.2 + acc)%Z) 0%Z items.

(** No entry of a layer declares a negative span. *)
Definition nonneg_layer (items : list (string * Z)) : Prop :=
  Forall (λ item : string * Z, (0 ≤ item.2)%Z) items.

(** The number of entries (cells and markers) of a header grid. *)
Definition grid_size (headers : list (list raw_cell)) : nat :=
  sum_list_with length headers.

(** ** The digits [str()] converts *)

(** The number of digits up to which [str()] converts an [int] (the
    interpreter's default since CPython 3.11; earlier versions have no
    limit). *)
Definition int_max_str_digits : Z := 4300.

(** A value that [str()] converts whatever the version. *)
Definition str_converts (value : pyval) : Prop :=
  match value with
  | VInt z => (Z.abs z < 10 ^ int_max_str_digits)%Z
  | _ => True
  end.

(** ** The outcome of a render call *)

(** The number of columns of a built table. *)
Definition table_cols (td : table_data) : Z :=
  total_cols_of (cells_of (td_headers td)) (td_data td).

(** A built table that the compositor can draw: at least one header row,
    one data row and one column. *)
Definition drawable (td : table_data) : Prop :=
  td_headers td ≠ [] ∧ td_data td ≠ [] ∧ table_cols td ≠ 0%Z.

(** The size of the canvas for a built table, at 150 dpi. *)
Definition canvas_size (g : Generator) (td : table_data) : Z * Z :=
  let n := table_cols td in
  (scaled 150 (n * fit_cell_width n + 1),
   scaled 150 ((Z.of_nat (length (td_headers td)) + Z.of_nat (length (td_data td)))
               * cell_height g + 1)).

(** What a render call asks of the imaging library once the table is
    drawn. *)
Definition saves (banner : bool) : list event :=
  Save TempTable ::
  (if banner then [Save TempBanner; Merge; Save FinalFile] else [Save FinalFile]).

(** The cells painted for a built table by a generator [g] that is
    scaled for the pass: header cells first, then the data cells row by
    row. *)
Definition table_paints `{PyEnv} (g : Generator) (a : render_args) (td : table_data)
  : list event :=
  let headers := cells_of (td_headers td) in
  let w := scaled 150 (fit_cell_width (table_cols td)) in
  (header_paint g w <$> anchors 0 headers)
  ++ (Draw <$> rows_paints g w (painted_row <$> headers)
                 (default [] (a_highlight_rules a)) 0 (a_color_column a)
                 (a_replace_zero a) (td_data td)).

(** The texts painted on a surface, in order. *)
Definition painted_texts (events : list event) : list string :=
  omap (λ e, match e with Draw p => Some (p_text p) | _ => None end) events.

(** ** Inputs of the worked examples *)

Module Examples.

(** The records of the end-to-end scenario. *)
Definition scores : list (dict pyval) :=
  [[("name", VStr "A"); ("score", VInt 0)]; [("name", VStr "B"); ("score", VInt 5)]].

Definition one_record : list (dict pyval) := [[("a", VInt 1); ("b", VInt 2)]].

(** A generator as [__init__] leaves it, and an empty surface. *)
Definition fresh : State := {| gen := init_generator; canvas := [] |}.

(** A generator in the middle of a render pass at 150 dpi. *)
Definition scaled_state : State :=
  {| gen := {| cell_width := Some 500%Z; cell_height := 125;
               font_size := 50; fonts := 50 |};
     canvas := [] |}.

(** The end-to-end scenario with an empty column-display mapping. *)
Definition scores_args : render_args :=
  {| a_data := scores; a_columns_order := Some ["name"; "score"];
     a_banner := false; a_color_column := "";
     a_multi_columns := None; a_column_display := Some [];
     a_replace_zero := true; a_highlight_rules := Some [] |}.

(** The same call on no records, every option left at its default. *)
Definition no_records_args : render_args :=
  {| a_data := []; a_columns_order := None;
     a_banner := false; a_color_column := "";
     a_multi_columns := None; a_column_display := None;
     a_replace_zero := false; a_highlight_rules := Some [] |}.

(** A call on no records that names its columns. *)
Definition no_records_ordered_args : render_args :=
  {| a_data := []; a_columns_order := Some ["name"; "score"];
     a_banner := false; a_color_column := "";
     a_multi_columns := None; a_column_display := Some [];
     a_replace_zero := false; a_highlight_rules := Some [] |}.

(** One record rendered without a column order, under a multi-level
    header whose only layer declares no group. *)
Definition unordered_args : render_args :=
  {| a_data := one_record; a_columns_order := None;
     a_banner := false; a_color_column := "";
     a_multi_columns := Some [[]]; a_column_display := None;
     a_replace_zero := false; a_highlight_rules := Some [] |}.

End Examples.

(* ===================================================================== *)
(** * Properties of the Value Formatter                                    *)
(* ===================================================================== *)

Section FormatterProperties.
Context `{PyEnv}.

Lemma not_null_or_empty (value : pyval) :
  value ≠ VNone → value ≠ VStr "" →
  is_None value || py_eq value (VStr "") = false.
Proof.
  intros Hnone Hempty. destruct value as [| b | z | f | s]; try reflexivity.
  - congruence.
  - simpl. destruct (String.eqb_spec s ""); [subst; congruence | reflexivity].
Qed.

Lemma format_pattern_truthy (format_type : option string) (pattern : string) :
  format_pattern format_type = Some pattern → str_truthy format_type = true.
Proof.
  unfold format_pattern. repeat case_bool_decide; intros; simplify_eq; reflexivity.
Qed.

Lemma format_branch_falsy (value : pyval) (format_type : option string) :
  str_truthy format_type = false → format_branch value format_type = None.
Proof. unfold format_branch. intros ->. reflexivity. Qed.

Lemma format_branch_label (value : pyval) (format_type : option string) :
  format_pattern format_type = None → is_ok (py_int value) = true →
  format_branch value format_type = None.
Proof.
  unfold format_branch, format_pattern. intros Hpat Hint.
  destruct (str_truthy format_type); [| reflexivity].
  destruct (py_int value); [| discriminate].
  repeat case_bool_decide; simplify_eq; reflexivity.
Qed.

(** C1 (as amended): the precedence of the Value Formatter.  (1) [None]
    and the empty string give the placeholder.  Otherwise (2) under one
    of the two format kinds of the source, ['to_format'] and ['to_day'],
    a value that converts to an integer timestamp is returned formatted,
    whatever [replace_zero] says, and (2') under any non-empty
    [format_type] a value whose conversion raises [ValueError] or
    [TypeError] is returned as [str(value)]; (3) when no format kind
    applies, [replace_zero] turns a value equal to zero as a float into
    the placeholder, and (4) everything else is [str(value)]. *)
Theorem process_value_precedence (value : pyval) (replace_zero : bool)
    (format_type : option string) :
  (value = VNone ∨ value = VStr "" →
   _process_value value replace_zero format_type = Ok "-") ∧
  (value ≠ VNone → value ≠ VStr "" →
   (∀ pattern timestamp s,
      format_pattern format_type = Some pattern →
      py_int value = Ok timestamp →
      strftime_local pattern timestamp = Ok s →
      _process_value value replace_zero format_type = Ok s) ∧
   (∀ e,
      str_truthy format_type = true →
      py_int value = Raise e → value_or_type_error e = true →
      _process_value value replace_zero format_type = Ok (py_str value)) ∧
   (str_truthy format_type = false
    ∨ format_pattern format_type = None ∧ is_ok (py_int value) = true →
    (replace_zero = true → py_float_is_zero value = Ok true →
     _process_value value replace_zero format_type = Ok "-") ∧
    (replace_zero = false
     ∨ py_float_is_zero value = Ok false
     ∨ (∃ e, py_float_is_zero value = Raise e ∧ value_or_type_error e = true) →
     _process_value value replace_zero format_type = Ok (py_str value)))).
Proof.
  split.
  - intros [-> | ->]; reflexivity.
  - intros Hnone Hempty. unfold _process_value.
    rewrite (not_null_or_empty _ Hnone Hempty). split; [| split].
    + intros pattern timestamp s Hpat Hint Hfmt.
      unfold format_branch. rewrite (format_pattern_truthy _ _ Hpat), Hint.
      unfold format_pattern in Hpat.
      repeat case_bool_decide; simplify_eq; rewrite Hfmt; reflexivity.
    + intros e Htruthy Hint Hcaught.
      unfold format_branch. rewrite Htruthy, Hint, Hcaught. reflexivity.
    + intros Hfall.
      assert (format_branch value format_type = None) as ->.
      { destruct Hfall as [Hfalsy | [Hpat Hint]].
        - by apply format_branch_falsy.
        - by apply format_branch_label. }
      unfold zero_branch. split.
      * intros -> ->. reflexivity.
      * intros [-> | [-> | (e & -> & ->)]]; [reflexivity | |];
          destruct replace_zero; reflexivity.
Qed.

End FormatterProperties.

(* ===================================================================== *)
(** * Properties of the Grid Geometry Calculator                           *)
(* ===================================================================== *)

Lemma foldr_max_start (l : list Z) (a b : Z) :
  foldr Z.max (Z.max a b) l = Z.max a (foldr Z.max b l).
Proof. induction l as [| x l IH]; simpl; [reflexivity | rewrite IH; lia]. Qed.

Lemma foldl_max_foldr {A} (f : A → Z) (l : list A) (a : Z) :
  foldl (λ acc x, Z.max acc (f x)) a l = foldr Z.max a (f <$> l).
Proof.
  revert a. induction l as [| x l IH]; intros a; [reflexivity |].
  cbn [foldl fmap list_fmap foldr]. rewrite IH, (Z.max_comm a).
  apply foldr_max_start.
Qed.

Lemma row_colspan_sum (row : list (option Cell)) : row_colspan row = row_sum row.
Proof.
  unfold row_colspan, row_sum.
  enough (∀ a, foldl (λ curr_cols cell,
                        match cell with
                        | Some c => (curr_cols + colspan c)%Z
                        | None => curr_cols
                        end) a row
               = (a + foldr Z.add 0 (colspan <$> omap id row))%Z) as Hgen.
  { rewrite Hgen. lia. }
  induction row as [| [c |] row IH]; intros a; simpl.
  - lia.
  - rewrite IH, <- Z.add_assoc. reflexivity.
  - apply IH.
Qed.

Lemma max_foldr_zero (x : Z) (l : list Z) :
  Z.max x (foldr Z.max 0%Z l) = Z.max 0 (foldr Z.max x l).
Proof. induction l as [| y l IH]; simpl; lia. Qed.

Lemma header_cols_largest (headers : list (list (option Cell))) :
  headers ≠ [] → header_cols headers = Z.max 0 (largest (row_sum <$> headers)).
Proof.
  intros Hne. unfold header_cols.
  rewrite (foldl_max_foldr row_colspan).
  replace (row_colspan <$> headers) with (row_sum <$> headers)
    by (apply list_fmap_ext; intros; symmetry; apply row_colspan_sum).
  destruct headers as [| row rest]; [done |].
  apply max_foldr_zero.
Qed.

Lemma max_row_len_largest (data : list (list string)) :
  data ≠ [] → max_row_len data = Ok (largest ((Z.of_nat ∘ length) <$> data)).
Proof.
  intros Hne. destruct data as [| row rest]; [done |]. simpl. f_equal.
  exact (foldl_max_foldr (Z.of_nat ∘ length) rest _).
Qed.

Lemma largest_length_nonneg (data : list (list string)) :
  (0 ≤ largest ((Z.of_nat ∘ length) <$> data))%Z.
Proof.
  destruct data as [| row rest]; simpl; [lia |].
  induction rest as [| r rest IH]; simpl; lia.
Qed.

Lemma fit_cell_width_clamp (total_cols : Z) :
  fit_cell_width total_cols = clamp 120 240 (1840 / total_cols).
Proof.
  unfold fit_cell_width, clamp, target_total_width, MAX_CELL_WIDTH, MIN_CELL_WIDTH.
  change (1920 - 2 * 40)%Z with 1840%Z.
  destruct (Z.ltb_spec 240 (1840 / total_cols));
    destruct (Z.ltb_spec (1840 / total_cols) 120); lia.
Qed.

(** C8: for non-empty headers and data spanning at least one column,
    [total_cols] is the larger of the largest per-row colspan sum and the
    longest data row; the one cell width kept in [self] is
    [clamp(1840 // total_cols, 120, 240)] (240 for three columns); the
    total width is [total_cols * cell_width + 1] and the total height
    [(header rows + data rows) * cell_height + 1]. *)
Theorem calculate_table_size_geometry (headers : list (list (option Cell)))
    (data : list (list string)) (s : State) :
  headers ≠ [] → data ≠ [] →
  let total_cols :=
    Z.max (largest (row_sum <$> headers)) (largest ((Z.of_nat ∘ length) <$> data)) in
  let w := clamp 120 240 (1840 / total_cols) in
  (0 < total_cols)%Z →
  _calculate_table_size headers data s
  = (Ok ((total_cols * w + 1)%Z,
         ((Z.of_nat (length headers) + Z.of_nat (length data))
          * cell_height (gen s) + 1)%Z),
     {| gen := with_cell_width (Some w) (gen s); canvas := canvas s |})
  ∧ (total_cols = 3%Z → w = 240%Z).
Proof.
  intros Hh Hd total_cols w Hpos. split.
  - unfold _calculate_table_size, mbind, M_bind, lift.
    rewrite (max_row_len_largest _ Hd), (header_cols_largest _ Hh).
    pose proof (largest_length_nonneg data) as Hlen.
    replace (Z.max (Z.max 0 (largest (row_sum <$> headers)))
                   (largest ((Z.of_nat ∘ length) <$> data)))
      with total_cols by (unfold total_cols; lia).
    destruct (Z.eqb_spec total_cols 0) as [Hz | _]; [lia |].
    simpl. rewrite fit_cell_width_clamp. reflexivity.
  - intros H3. unfold w. rewrite H3. reflexivity.
Qed.

(* ===================================================================== *)
(** * Properties of the Table Data Builder: column pruning                 *)
(* ===================================================================== *)


Lemma valid_fold_cols (row : dict pyval) (cols : list string) (valid : gset string)
    (col : string) :
  col ∈ foldl (λ valid col,
                 if py_in (row_get row col) empty_markers then valid
                 else {[col]} ∪ valid) valid cols
  ↔ col ∈ valid ∨ (col ∈ cols ∧ py_in (row_get row col) empty_markers = false).
Proof.
  revert valid. induction cols as [| c cols IH]; intros valid; cbn [foldl].
  - rewrite elem_of_nil. naive_solver.
  - rewrite IH, elem_of_cons.
    destruct (py_in (row_get row c) empty_markers) eqn:Hc.
    + intuition (subst; congruence).
    + rewrite elem_of_union, elem_of_singleton. intuition (subst; auto).
Qed.

Lemma valid_fold_rows (data : list (dict pyval)) (cols : list string)
    (valid : gset string) (col : string) :
  col ∈ foldl (λ valid row,
                 foldl (λ valid col,
                          if py_in (row_get row col) empty_markers then valid
                          else {[col]} ∪ valid) valid cols) valid data
  ↔ col ∈ valid
    ∨ (col ∈ cols ∧ ∃ row, row ∈ data ∧ py_in (row_get row col) empty_markers = false).
Proof.
  revert valid. induction data as [| row data IH]; intros valid; cbn [foldl].
  - setoid_rewrite elem_of_nil. naive_solver.
  - rewrite IH, valid_fold_cols. setoid_rewrite elem_of_cons. naive_solver.
Qed.

Lemma retains_spec (data : list (dict pyval)) (col : string) :
  retains data col = true
  ↔ ∃ row, row ∈ data ∧ py_in (row_get row col) empty_markers = false.
Proof.
  unfold retains. rewrite existsb_exists. split.
  - intros (row & Hin & Hv). exists row. rewrite list_elem_of_In.
    by apply negb_true_iff in Hv.
  - intros (row & Hin & Hv). exists row. rewrite <- list_elem_of_In.
    by rewrite Hv.
Qed.

Lemma valid_columns_spec (data : list (dict pyval)) (cols : list string)
    (col : string) :
  cols ≠ [] →
  col ∈ valid_columns data (Some cols) ↔ col ∈ cols ∧ retains data col = true.
Proof.
  intros Hne. unfold valid_columns.
  destruct cols as [| c cols]; [done |]. cbn [seq_truthy default].
  rewrite valid_fold_rows, retains_spec, elem_of_empty. naive_solver.
Qed.

Lemma filtered_columns_retained (data : list (dict pyval)) (cols : list string) :
  cols ≠ [] →
  filtered_columns data (Some cols)
  = Some (filter (λ col, retains data col = true) cols).
Proof.
  intros Hne. unfold filtered_columns.
  assert (seq_truthy (Some cols) = true) as -> by (by destruct cols).
  cbn [from_option id]. f_equal.
  enough (∀ l : list string, (∀ x, x ∈ l → x ∈ cols) →
            filter (λ col, col ∈ valid_columns data (Some cols)) l
            = filter (λ col, retains data col = true) l) as Hgen
    by (by apply Hgen).
  induction l as [| x l IH]; intros Hsub; [done |].
  rewrite !filter_cons, IH by (intros y Hy; apply Hsub; by right).
  pose proof (valid_columns_spec data cols x Hne) as Hx.
  assert (x ∈ cols) by (apply Hsub; by left).
  repeat case_decide; naive_solver.
Qed.


(* ===================================================================== *)
(** * Properties of the Table Data Builder: headers and rows               *)
(* ===================================================================== *)

Lemma mapM_pure {A B} (f : A → B) (l : list A) :
  mapM (λ x, Ok (f x)) l = Ok (f <$> l).
Proof. induction l as [| x l IH]; simpl; [reflexivity | by rewrite IH]. Qed.

Lemma mapM_ext {A B} (f g : A → result B) (l : list A) :
  (∀ x, f x = g x) → mapM f l = mapM g l.
Proof. intros Hfg. induction l as [| x l IH]; simpl; [reflexivity | by rewrite Hfg, IH]. Qed.

Lemma mapM_Forall2 {A B} (f : A → result B) (l : list A) :
  ∀ l', mapM f l = Ok l' → Forall2 (λ x y, f x = Ok y) l l'.
Proof.
  induction l as [| x l IH]; intros l' Hrun.
  - simpl in Hrun. simplify_eq. constructor.
  - cbn [mapM] in Hrun.
    destruct (f x) as [y | e] eqn:Hx; cbn [mbind result_bind] in Hrun; [| done].
    destruct (mapM f l) as [ys | e]; cbn [mbind result_bind] in Hrun; [| done].
    simplify_eq. constructor; [done | by apply IH].
Qed.



(** With a list of filtered columns at hand the layer loops never raise. *)
Lemma count_valid_ok (cols : list string) (pos : Z) (indices : list nat) (v : Z) :
  ∃ v', count_valid (Some cols) pos indices v = Ok v'.
Proof.
  revert v. induction indices as [| i indices IH]; intros v; simpl; eauto.
Qed.

Lemma layer_items_ok (cols : list string) (items : list (string * Z)) (pos : Z)
    (row : list raw_cell) :
  ∃ pos' row', layer_items (Some cols) items pos row = Ok (pos', row').
Proof.
  revert pos row. induction items as [| [header span] items IH]; intros pos row; simpl.
  - eauto.
  - destruct (count_valid_ok cols pos (range span) 0) as [v ->]. simpl. apply IH.
Qed.

Lemma layer_rows_ok (cols : list string) (multi : list (dict Z)) (pos : Z)
    (headers : list (list raw_cell)) :
  ∃ headers', layer_rows (Some cols) multi pos headers = Ok headers'.
Proof.
  revert pos headers. induction multi as [| layer multi IH]; intros pos headers; simpl.
  - eauto.
  - destruct (layer_items_ok cols (dict_items layer) pos []) as (pos' & row' & ->).
    simpl. apply IH.
Qed.

(** Without filtered columns a layer survives only if it never looks at
    them, that is if none of its spans is positive. *)
Lemma layer_items_no_span (items : list (string * Z)) (pos : Z) (row : list raw_cell) :
  Forall (λ item : string * Z, (item.2 ≤ 0)%Z) items →
  ∃ pos', layer_items None items pos row = Ok (pos', row).
Proof.
  intros Hall. revert pos. induction Hall as [| [header span] items Hspan _ IH]; intros pos.
  - simpl. eauto.
  - simpl in Hspan. cbn [layer_items]. unfold range.
    replace (Z.to_nat span) with 0 by lia. simpl. apply IH.
Qed.

Lemma layer_rows_no_span (multi : list (dict Z)) (pos : Z)
    (headers : list (list raw_cell)) :
  no_positive_span multi → layer_rows None multi pos headers = Ok headers.
Proof.
  intros Hall. revert pos. induction Hall as [| layer multi Hlayer _ IH]; intros pos.
  - reflexivity.
  - cbn [layer_rows].
    destruct (layer_items_no_span (dict_items layer) pos [] Hlayer) as [pos' ->].
    simpl. apply IH.
Qed.

Section BuilderProperties.
Context `{PyEnv}.

Lemma build_row_unfiltered (filtered : option (list string))
    (column_display : option (dict string)) (replace_zero : bool) (row : dict pyval) :
  seq_truthy filtered = false →
  build_row filtered column_display replace_zero row = Ok (py_str <$> dict_values row).
Proof. unfold build_row. by intros ->. Qed.


(** C9 (as amended): when [columns_order] is omitted there is no pruning
    and each data row is [str(v)] for the values [v] of the record in
    their own order; the Value Formatter is not applied (no placeholder,
    no zero replacement, no format kind).  The builder does return such
    rows when the multi-level header declares no positive span. *)
Theorem unfiltered_rows (data : list (dict pyval))
    (multi_columns : option (list (dict Z)))
    (column_display : option (dict string)) (replace_zero : bool) :
  (∀ td,
     _build_table_data data None multi_columns column_display replace_zero = Ok td →
     td_data td = (λ row, py_str <$> dict_values row) <$> data)
  ∧ (∀ layers,
       multi_columns = Some layers → layers ≠ [] → no_positive_span layers →
       _build_table_data data None multi_columns column_display replace_zero
       = Ok {| td_headers := [];
               td_data := (λ row, py_str <$> dict_values row) <$> data |}).
Proof.
  assert (mapM (build_row None column_display replace_zero) data
          = Ok ((λ row, py_str <$> dict_values row) <$> data)) as Hrows.
  { rewrite <- mapM_pure. apply mapM_ext. intros row.
    by apply build_row_unfiltered. }
  split.
  - intros td. unfold _build_table_data. cbn [filtered_columns seq_truthy].
    rewrite Hrows.
    destruct (build_headers None multi_columns column_display); simpl; [| done].
    by intros [= <-].
  - intros layers -> Hne Hspans. unfold _build_table_data.
    cbn [filtered_columns seq_truthy]. rewrite Hrows.
    unfold build_headers.
    assert (seq_truthy (Some layers) = true) as -> by (by destruct layers).
    cbn [default]. rewrite (layer_rows_no_span _ _ _ Hspans). simpl.
    by rewrite andb_false_r.
Qed.

(** C2 (the failing input): with [column_display] left at its default
    [None] and no multi-level header, the single header row is never
    built: [column_display.get] raises [AttributeError]. *)
Theorem end_to_end_scenario_raises :
  _build_table_data
    [[("name", VStr "A"); ("score", VInt 0)]; [("name", VStr "B"); ("score", VInt 5)]]
    (Some ["name"; "score"]) None None true
  = Raise AttributeError.
Proof. vm_compute. reflexivity. Qed.

End BuilderProperties.

(* ===================================================================== *)
(** * Running the methods                                                  *)
(* ===================================================================== *)

Lemma bind_run {A B} (m : M A) (f : A → M B) (s : State) :
  (m ≫= f) s = match m s with
               | (Ok a, s') => f a s'
               | (Raise e, s') => (Raise e, s')
               end.
Proof. reflexivity. Qed.

Lemma bind_ok_inv {A B} (m : M A) (f : A → M B) (s s'' : State) (b : B) :
  (m ≫= f) s = (Ok b, s'') →
  ∃ a s', m s = (Ok a, s') ∧ f a s' = (Ok b, s'').
Proof.
  rewrite bind_run. destruct (m s) as [[a | e] s']; [eauto | discriminate].
Qed.

Lemma keeps_self_ret {A} (a : A) : keeps_self (mret a).
Proof. by intros s. Qed.

Lemma keeps_self_bind {A B} (m : M A) (f : A → M B) :
  keeps_self m → (∀ a, keeps_self (f a)) → keeps_self (m ≫= f).
Proof.
  intros Hm Hf s. rewrite bind_run. specialize (Hm s).
  destruct (m s) as [[a | e] s']; simpl in *; [| done].
  by rewrite Hf.
Qed.

Lemma keeps_self_raise {A} (e : exn) : keeps_self (@raise A e).
Proof. by intros s. Qed.

Lemma keeps_self_lift {A} (r : result A) : keeps_self (lift r).
Proof. by intros s. Qed.

Lemma keeps_self_get : keeps_self get_self.
Proof. by intros s. Qed.

Lemma keeps_self_emit (e : event) : keeps_self (emit e).
Proof. by intros s. Qed.

Lemma keeps_self_cell_width : keeps_self self_cell_width.
Proof.
  apply keeps_self_bind; [apply keeps_self_get |].
  intros g. destruct (cell_width g); [apply keeps_self_ret | apply keeps_self_raise].
Qed.

Create HintDb keeps.
#[local] Hint Resolve keeps_self_ret keeps_self_raise keeps_self_lift
  keeps_self_get keeps_self_emit keeps_self_cell_width : keeps.

Ltac keeps_step :=
  repeat first
    [ apply keeps_self_bind; [| intros ?]
    | progress auto with keeps
    | match goal with
      | |- keeps_self (match ?x with _ => _ end) => destruct x
      | |- keeps_self (if ?b then _ else _) => destruct b
      | |- keeps_self (let '(_, _) := ?x in _) => destruct x
      end ].

Section Running.
Context `{PyEnv}.

Lemma process_value_str (t : string) (replace_zero : bool) :
  _process_value (VStr t) replace_zero None = Ok (display_text replace_zero t).
Proof.
  unfold _process_value, display_text. simpl.
  destruct (String.eqb t ""); [reflexivity |].
  unfold zero_branch, py_float_is_zero.
  destruct replace_zero; [| reflexivity].
  destruct (str_float_is_zero t) as [[] |]; reflexivity.
Qed.

Lemma draw_cell_run (x y : Z) (cell : cell_arg) (is_header : bool) (row_idx : Z)
    (color_column column_name : string) (replace_zero highlight : bool)
    (s : State) (w : Z) :
  cell_width (gen s) = Some w →
  _draw_cell x y cell is_header row_idx color_column column_name
    replace_zero highlight s
  = (Ok (mkCell (display_text replace_zero (text (arg_cell cell)))
                (rowspan (arg_cell cell)) (colspan (arg_cell cell))),
     {| gen := gen s;
        canvas := canvas s ++
          [Draw (paint_of (gen s) w x y (arg_cell cell) is_header row_idx
                   color_column column_name replace_zero highlight)] |}).
Proof.
  intros Hw.
  unfold _draw_cell, self_cell_width, mbind, M_bind, get_self, lift, mret, M_ret.
  rewrite Hw. fold (arg_cell cell). rewrite process_value_str.
  reflexivity.
Qed.

Lemma keeps_self_draw_cell (x y : Z) (cell : cell_arg) (is_header : bool)
    (row_idx : Z) (color_column column_name : string)
    (replace_zero highlight : bool) :
  keeps_self (_draw_cell x y cell is_header row_idx color_column column_name
                replace_zero highlight).
Proof. unfold _draw_cell. keeps_step. Qed.

End Running.

(* ===================================================================== *)
(** * Properties of the Table Compositor: the header pass                  *)
(* ===================================================================== *)

Lemma rect_lookup (W : nat) (d : list (list bool)) (r : nat) :
  rect W d → r < length d → ∃ row, d !! r = Some row ∧ length row = W.
Proof.
  intros Hrect Hr. destruct (lookup_lt_is_Some_2 d r Hr) as [row Hrow].
  exists row. split; [done |].
  by apply (Forall_lookup_1 _ _ _ _ Hrect Hrow).
Qed.

Lemma rect_insert (W : nat) (d : list (list bool)) (r : nat) (row : list bool) :
  rect W d → length row = W → rect W (<[r := row]> d).
Proof. intros Hrect Hrow. by apply Forall_insert. Qed.

Lemma drawn_at_insert (d : list (list bool)) (r c : nat) (row : list bool)
    (r' c' : nat) :
  d !! r = Some row → c < length row →
  drawn_at (<[r := <[c := true]> row]> d) r' c'
  = if bool_decide (r' = r ∧ c' = c) then Some true else drawn_at d r' c'.
Proof.
  intros Hrow Hc. unfold drawn_at.
  destruct (decide (r' = r)) as [-> | Hne].
  - rewrite list_lookup_insert_eq by (by eapply lookup_lt_Some).
    rewrite Hrow. simpl.
    destruct (decide (c' = c)) as [-> | Hne'].
    + rewrite list_lookup_insert_eq by done.
      rewrite bool_decide_eq_true_2; done.
    + rewrite list_lookup_insert_ne by done.
      rewrite bool_decide_eq_false_2; [done | naive_solver].
  - rewrite list_lookup_insert_ne by done.
    rewrite bool_decide_eq_false_2; [done | naive_solver].
Qed.

(** The inner marking loop over the columns [c, c + n) of row [i]. *)
Lemma mark_cols_spec (W i c n : nat) (d : list (list bool)) :
  rect W d → i < length d →
  let d' :=
    foldl (λ drawn k,
             if bool_decide (i < length drawn
                             ∧ c + k < length (default [] (drawn !! 0)))
             then <[i := <[c + k := true]> (default [] (drawn !! i))]> drawn
             else drawn) d (seq 0 n) in
  rect W d' ∧ length d' = length d
  ∧ ∀ r' c', drawn_at d' r' c'
             = if bool_decide (r' = i ∧ c ≤ c' < c + n ∧ c' < W) then Some true
               else drawn_at d r' c'.
Proof.
  intros Hrect Hi. induction n as [| n IH].
  - simpl. split; [done |]. split; [done |]. intros r' c'.
    rewrite bool_decide_eq_false_2; [done | lia].
  - rewrite seq_S, foldl_snoc. cbn zeta in *. cbn [Nat.add].
    destruct IH as (Hrect' & Hlen' & Hat').
    set (dn := foldl _ d (seq 0 n)) in *.
    destruct (rect_lookup W dn 0 Hrect' ltac:(lia)) as (row0 & Hrow0 & Hlen0).
    destruct (rect_lookup W dn i Hrect' ltac:(lia)) as (rowi & Hrowi & Hleni).
    rewrite Hrow0, Hrowi. cbn [from_option id]. rewrite Hlen0.
    case_bool_decide as Hcond.
    + destruct Hcond as [_ Hlt].
      split; [apply rect_insert; [done | by rewrite length_insert] |].
      split; [by rewrite length_insert |].
      intros r' c'. rewrite drawn_at_insert by (done || lia). rewrite Hat'.
      repeat case_bool_decide; try done; lia.
    + split; [done |]. split; [done |]. intros r' c'. rewrite Hat'.
      repeat case_bool_decide; try done; lia.
Qed.

(** [mark_span] for a cell of row span 1 within a rectangular matrix. *)
Lemma mark_span_spec (W r c n : nat) (d : list (list bool)) (cell : Cell) :
  rect W d → r < length d →
  rowspan cell = 1%Z → colspan cell = Z.of_nat n →
  rect W (mark_span d r c cell)
  ∧ length (mark_span d r c cell) = length d
  ∧ ∀ r' c', drawn_at (mark_span d r c cell) r' c'
             = if bool_decide (r' = r ∧ c ≤ c' < c + n ∧ c' < W) then Some true
               else drawn_at d r' c'.
Proof.
  intros Hrect Hr Hrs Hcs. unfold mark_span, range. rewrite Hrs, Hcs, Nat2Z.id.
  change (Z.to_nat 1) with 1. cbn [seq foldl]. rewrite Nat.add_0_r.
  exact (mark_cols_spec W r c n d Hrect Hr).
Qed.

Lemma row_anchors_skip (r c k : nat) (rest : list (option Cell)) :
  row_anchors r c (replicate k None ++ rest) = row_anchors r (c + k) rest.
Proof.
  revert c. induction k as [| k IH]; intros c; simpl.
  - by rewrite Nat.add_0_r.
  - rewrite IH. f_equal. lia.
Qed.

Lemma state_eta (s : State) : {| gen := gen s; canvas := canvas s |} = s.
Proof. by destruct s. Qed.

Section HeaderPass.
Context `{PyEnv}.

(** Continuation markers are stepped over without a look at the matrix. *)
Lemma draw_header_row_skip (r c k : nat) (rest : list (option Cell))
    (d : list (list bool)) (s : State) :
  draw_header_row r c (replicate k None ++ rest) d s
  = match draw_header_row r (c + k) rest d s with
    | (Ok (d', rest'), s') => (Ok (d', replicate k None ++ rest'), s')
    | (Raise e, s') => (Raise e, s')
    end.
Proof.
  revert c. induction k as [| k IH]; intros c.
  - simpl. rewrite Nat.add_0_r.
    by destruct (draw_header_row r c rest d s) as [[[d' rest'] | e] s'].
  - cbn [replicate app draw_header_row]. rewrite !bind_run. cbn [mret M_ret].
    rewrite bind_run, IH. replace (S c + k) with (c + S k) by lia.
    by destruct (draw_header_row r (c + S k) rest d s) as [[[d' rest'] | e] s'].
Qed.

(** The pass over a row made of blocks: every real cell is painted, at
    its own position, and its block is marked. *)
Lemma draw_header_row_tiled (W r : nat) (row : list (option Cell)) :
  tiled row →
  ∀ (c : nat) (d : list (list bool)) (s : State) (w : Z),
    cell_width (gen s) = Some w →
    rect W d → r < length d → c + length row ≤ W →
    (∀ c', c ≤ c' → c' < W → drawn_at d r c' = Some false) →
    ∃ d',
      draw_header_row r c row d s
      = (Ok (d', painted_row row),
         {| gen := gen s;
            canvas := canvas s ++ (header_paint (gen s) w <$> row_anchors r c row) |})
      ∧ rect W d' ∧ length d' = length d
      ∧ ∀ r' c', drawn_at d' r' c'
                 = if bool_decide (r' = r ∧ c ≤ c' < c + length row) then Some true
                   else drawn_at d r' c'.
Proof.
  induction 1 as [| t k rest Hrest IH]; intros c d s w Hw Hrect Hr Hfit Hfree.
  - exists d. simpl. rewrite app_nil_r, state_eta.
    split; [done |]. split; [done |]. split; [done |].
    intros r' c'. rewrite bool_decide_eq_false_2; [done | lia].
  - set (cell := mkCell t 1 (Z.of_nat (S k))) in *.
    rewrite length_cons, length_app, length_replicate in Hfit.
    destruct (mark_span_spec W r c (S k) d cell Hrect Hr eq_refl eq_refl)
      as (Hrect1 & Hlen1 & Hat1).
    set (d1 := mark_span d r c cell) in *.
    set (s1 := {| gen := gen s;
                  canvas := canvas s ++ [header_paint (gen s) w (r, c, cell)] |}).
    destruct (IH (S c + k) d1 s1 w Hw Hrect1 ltac:(lia) ltac:(lia)) as
      (d2 & Hrun & Hrect2 & Hlen2 & Hat2).
    { intros c' Hc' HW. rewrite Hat1.
      rewrite bool_decide_eq_false_2 by lia. apply Hfree; lia. }
    exists d2. split; [| split; [done |]; split; [lia |]].
    + cbn [draw_header_row]. rewrite bind_run.
      rewrite (Hfree c ltac:(lia) ltac:(lia)).
      rewrite bind_run. unfold self_cell_width at 1. rewrite bind_run.
      unfold get_self at 1. rewrite Hw. cbn [mret M_ret].
      rewrite bind_run. unfold get_self at 1. rewrite bind_run.
      rewrite (draw_cell_run _ _ _ _ _ _ _ _ _ s w Hw). cbn [mret M_ret arg_cell].
      fold d1. rewrite bind_run, draw_header_row_skip.
      change (draw_header_row r (S c + k) rest d1 _)
        with (draw_header_row r (S c + k) rest d1 s1).
      rewrite Hrun. unfold mret, M_ret. f_equal.
      * do 2 f_equal. unfold painted_row. cbn [fmap list_fmap]. f_equal.
        by rewrite fmap_app, fmap_replicate.
      * unfold s1. cbn [gen canvas]. f_equal.
        cbn [row_anchors fmap list_fmap]. rewrite row_anchors_skip.
        by rewrite <- app_assoc.
    + intros r' c'. rewrite Hat2, Hat1.
      rewrite length_cons, length_app, length_replicate.
      repeat case_bool_decide; try done; lia.
Qed.

(** The pass over a grid of such rows. *)
Lemma draw_header_rows_tiled (W : nat) (headers : list (list (option Cell))) :
  Forall tiled headers → Forall (λ row, length row ≤ W) headers →
  ∀ (r : nat) (d : list (list bool)) (s : State) (w : Z),
    cell_width (gen s) = Some w →
    rect W d → r + length headers ≤ length d →
    (∀ r' c', r ≤ r' → r' < length d → c' < W → drawn_at d r' c' = Some false) →
    ∃ d',
      draw_header_rows r headers d s
      = (Ok (d', painted_row <$> headers),
         {| gen := gen s;
            canvas := canvas s ++ (header_paint (gen s) w <$> anchors r headers) |})
      ∧ rect W d' ∧ length d' = length d
      ∧ ∀ r' c', drawn_at d' r' c'
                 = if bool_decide (r ≤ r' ∧ c' < row_len headers (r' - r))
                   then Some true else drawn_at d r' c'.
Proof.
  intros Htiled. induction Htiled as [| row rest Hrow _ IH];
    intros Hfit r d s w Hw Hrect Hlen Hfree.
  - exists d. simpl. rewrite app_nil_r, state_eta.
    split; [done |]. split; [done |]. split; [done |].
    intros r' c'. rewrite bool_decide_eq_false_2; [done |].
    unfold row_len. rewrite lookup_nil. simpl. lia.
  - apply Forall_cons in Hfit as [Hfit_row Hfit_rest].
    rewrite length_cons in Hlen.
    destruct (draw_header_row_tiled W r row Hrow 0 d s w Hw Hrect
                ltac:(lia) ltac:(lia)) as (d1 & Hrun1 & Hrect1 & Hlen1 & Hat1).
    { intros c' _ HW. apply Hfree; lia. }
    set (s1 := {| gen := gen s;
                  canvas := canvas s ++ (header_paint (gen s) w <$> row_anchors r 0 row) |})
      in *.
    destruct (IH Hfit_rest (S r) d1 s1 w Hw Hrect1 ltac:(lia)) as
      (d2 & Hrun2 & Hrect2 & Hlen2 & Hat2).
    { intros r' c' Hr' Hr'' HW. rewrite Hat1.
      rewrite bool_decide_eq_false_2 by lia. apply Hfree; lia. }
    exists d2. split; [| split; [done |]; split; [lia |]].
    + cbn [draw_header_rows]. rewrite bind_run, Hrun1, bind_run, Hrun2.
      unfold mret, M_ret. f_equal. unfold s1. cbn [gen canvas anchors].
      by rewrite fmap_app, app_assoc.
    + intros r' c'. rewrite Hat2, Hat1. unfold row_len.
      destruct (decide (r' = r)) as [-> | Hne].
      * rewrite Nat.sub_diag. cbn [lookup list_lookup from_option].
        repeat case_bool_decide; try done; lia.
      * destruct (decide (r < r')) as [Hlt | Hge].
        -- replace (r' - r) with (S (r' - S r)) by lia.
           change ((row :: rest) !! S (r' - S r)) with (rest !! (r' - S r)).
           generalize (from_option length 0 (rest !! (r' - S r))). intros n.
           repeat case_bool_decide; try done; lia.
        -- generalize (from_option length 0 (rest !! (r' - S r))).
           generalize (from_option length 0 ((row :: rest) !! (r' - r))).
           intros n m. repeat case_bool_decide; try done; lia.
Qed.

End HeaderPass.

(** ** Coverage of a grid of block rows *)

Lemma row_cover_tiled (r : nat) (row : list (option Cell)) :
  tiled row →
  ∀ c0 r' c,
    length (filter (covers r' c) (row_anchors r c0 row))
    = if bool_decide (r' = r ∧ c0 ≤ c < c0 + length row) then 1 else 0.
Proof.
  induction 1 as [| t k rest Hrest IH]; intros c0 r' c.
  - simpl. rewrite bool_decide_eq_false_2; [done | lia].
  - cbn [row_anchors]. rewrite row_anchors_skip, filter_cons.
    rewrite length_cons, length_app, length_replicate.
    case_decide as Hcov; cbn [length]; rewrite IH; unfold covers in Hcov;
      cbn [rowspan colspan] in Hcov;
      repeat case_bool_decide; try done; lia.
Qed.

Lemma grid_cover_tiled (headers : list (list (option Cell))) :
  Forall tiled headers →
  ∀ i r c,
    length (filter (covers r c) (anchors i headers))
    = if bool_decide (i ≤ r ∧ c < row_len headers (r - i)) then 1 else 0.
Proof.
  induction 1 as [| row rest Hrow _ IH]; intros i r c.
  - simpl. rewrite bool_decide_eq_false_2; [done |].
    unfold row_len. rewrite lookup_nil. simpl. lia.
  - cbn [anchors]. rewrite filter_app, length_app, IH, (row_cover_tiled _ _ Hrow).
    unfold row_len. destruct (decide (r = i)) as [-> | Hne].
    + rewrite Nat.sub_diag. cbn [lookup list_lookup from_option].
      repeat case_bool_decide; try done; lia.
    + destruct (decide (i < r)) as [Hlt | Hge].
      * replace (r - i) with (S (r - S i)) by lia.
        change ((row :: rest) !! S (r - S i)) with (rest !! (r - S i)).
        generalize (from_option length 0 (rest !! (r - S i))). intros n.
        repeat case_bool_decide; try done; lia.
      * generalize (from_option length 0 (rest !! (r - S i))).
        generalize (from_option length 0 ((row :: rest) !! (r - i))).
        intros n m. repeat case_bool_decide; try done; lia.
Qed.

(** ** The header rows of a built table are block rows *)

Lemma tiled_app (a b : list (option Cell)) : tiled a → tiled b → tiled (a ++ b).
Proof.
  induction 1 as [| t k rest Hrest IH]; intros Hb; [done |].
  rewrite <- app_comm_cons, <- app_assoc. constructor. by apply IH.
Qed.

Lemma tiled_layer_block (header : string) (v : Z) :
  (0 < v)%Z →
  tiled (to_cell <$> [RDict header v 1] ++ replicate (Z.to_nat (v - 1)) RNull).
Proof.
  intros Hv. rewrite fmap_app, fmap_replicate. cbn [fmap list_fmap to_cell app].
  replace v with (Z.of_nat (S (Z.to_nat (v - 1)))) at 1 by lia.
  rewrite <- (app_nil_r (replicate _ _)). constructor. constructor.
Qed.

Lemma layer_items_tiled (filtered : option (list string))
    (items : list (string * Z)) :
  ∀ pos row pos' row',
    layer_items filtered items pos row = Ok (pos', row') →
    tiled (to_cell <$> row) → tiled (to_cell <$> row').
Proof.
  induction items as [| [header span] items IH]; intros pos row pos' row' Hrun Hrow.
  - simpl in Hrun. by simplify_eq.
  - cbn [layer_items] in Hrun.
    destruct (count_valid filtered pos (range span) 0) as [v | e]; [| done].
    cbn [mbind result_bind] in Hrun. apply IH in Hrun; [done |].
    destruct (Z.ltb_spec 0 v) as [Hv | Hv]; [| done].
    rewrite fmap_app. apply tiled_app; [done |]. by apply tiled_layer_block.
Qed.

Lemma layer_rows_tiled (filtered : option (list string)) (multi : list (dict Z)) :
  ∀ pos headers headers',
    layer_rows filtered multi pos headers = Ok headers' →
    Forall tiled (cells_of headers) → Forall tiled (cells_of headers').
Proof.
  induction multi as [| layer multi IH]; intros pos headers headers' Hrun Hh.
  - simpl in Hrun. by simplify_eq.
  - cbn [layer_rows] in Hrun.
    destruct (layer_items filtered (dict_items layer) pos []) as [[pos1 row] | e] eqn:Hrow;
      [| done].
    cbn [mbind result_bind] in Hrun. apply IH in Hrun; [done |].
    destruct row as [| x row]; [done |].
    unfold cells_of. rewrite fmap_app. apply Forall_app. split; [done |].
    apply Forall_singleton.
    by apply (layer_items_tiled _ _ _ _ _ _ Hrow), tiled_nil.
Qed.

Lemma name_row_tiled (column_display : option (dict string)) (cols : list string) :
  ∀ row, mapM (name_cell column_display) cols = Ok row → tiled (to_cell <$> row).
Proof.
  induction cols as [| col cols IH]; intros row Hrun.
  - simpl in Hrun. simplify_eq. constructor.
  - cbn [mapM] in Hrun.
    destruct (name_cell column_display col) as [cell | e] eqn:Hcell;
      cbn [mbind result_bind] in Hrun; [| done].
    destruct (mapM (name_cell column_display) cols) as [row' | e];
      cbn [mbind result_bind] in Hrun; [| done].
    unfold name_cell in Hcell.
    destruct (display_name column_display col) as [name | e];
      cbn [mbind result_bind] in Hcell; [| done].
    simplify_eq. cbn [fmap list_fmap to_cell].
    apply (tiled_block name 0). by apply IH.
Qed.

Lemma build_headers_tiled (filtered : option (list string))
    (multi_columns : option (list (dict Z)))
    (column_display : option (dict string)) (headers : list (list raw_cell)) :
  build_headers filtered multi_columns column_display = Ok headers →
  Forall tiled (cells_of headers).
Proof.
  unfold build_headers. destruct (seq_truthy multi_columns).
  - destruct (layer_rows filtered (default [] multi_columns) 0 []) as [hs | e] eqn:Hlayers;
      [| done].
    cbn [mbind result_bind].
    apply layer_rows_tiled in Hlayers; [| by constructor].
    destruct (seq_truthy column_display && seq_truthy filtered).
    + destruct (mapM (name_cell column_display) (default [] filtered)) as [row | e] eqn:Hrow;
        [| done].
      cbn [mbind result_bind]. intros [= <-].
      unfold cells_of. rewrite fmap_app. apply Forall_app. split; [done |].
      apply Forall_singleton. by eapply name_row_tiled.
    + by intros [= <-].
  - destruct filtered as [cols |]; [| done].
    destruct (mapM (name_cell column_display) cols) as [row | e] eqn:Hrow; [| done].
    cbn [mbind result_bind]. intros [= <-].
    apply Forall_singleton. by eapply name_row_tiled.
Qed.

(** ** The tracking matrix is wide enough *)

Lemma row_sum_skip (k : nat) (rest : list (option Cell)) :
  row_sum (replicate k None ++ rest) = row_sum rest.
Proof. induction k as [| k IH]; [done | exact IH]. Qed.

Lemma tiled_length (row : list (option Cell)) :
  tiled row → Z.of_nat (length row) = row_colspan row.
Proof.
  rewrite row_colspan_sum.
  induction 1 as [| t k rest Hrest IH]; [done |].
  rewrite length_cons, length_app, length_replicate.
  change (row_sum (Some (mkCell t 1 (Z.of_nat (S k))) :: replicate k None ++ rest))
    with (Z.of_nat (S k) + row_sum (replicate k None ++ rest))%Z.
  rewrite row_sum_skip, <- IH. lia.
Qed.

Lemma header_cols_ge (headers : list (list (option Cell))) (row : list (option Cell)) :
  row ∈ headers → (row_colspan row ≤ header_cols headers)%Z.
Proof.
  unfold header_cols. rewrite (foldl_max_foldr row_colspan).
  induction 1 as [row rest | row row' rest Hin IH]; cbn [fmap list_fmap foldr]; lia.
Qed.

Lemma fit_cell_width_range (n : Z) : (120 ≤ fit_cell_width n ≤ 240)%Z.
Proof. rewrite fit_cell_width_clamp. unfold clamp. lia. Qed.

Lemma scaled_cover (n w : Z) :
  (0 ≤ n)%Z → (120 ≤ w)%Z → (n ≤ scaled 150 (n * w + 1) / scaled 150 w)%Z.
Proof.
  intros Hn Hw. unfold scaled.
  rewrite !Z.quot_div_nonneg by nia.
  pose proof (Z.mul_div_le (w * 150) 72 ltac:(lia)) as Hq.
  assert (0 < w * 150 / 72)%Z as Hpos.
  { apply Z.div_str_pos. lia. }
  apply Z.div_le_lower_bound; [done |].
  apply Z.div_le_lower_bound; [lia |]. nia.
Qed.

Lemma total_cols_nonneg (headers : list (list (option Cell)))
    (data : list (list string)) :
  (0 ≤ total_cols_of headers data)%Z.
Proof.
  unfold total_cols_of. pose proof (largest_length_nonneg data). lia.
Qed.

Lemma matrix_width_fits (headers : list (list (option Cell)))
    (data : list (list string)) :
  Forall tiled headers →
  Forall (λ row, length row ≤ matrix_width 150 headers data) headers.
Proof.
  intros Htiled. apply Forall_forall. intros row Hin.
  pose proof (proj1 (Forall_forall _ _) Htiled row Hin) as Hrow.
  pose proof (tiled_length row Hrow) as Hlen.
  pose proof (header_cols_ge headers row Hin) as Hcols.
  pose proof (total_cols_nonneg headers data) as Hn.
  pose proof (fit_cell_width_range (total_cols_of headers data)) as [Hw _].
  pose proof (scaled_cover _ _ Hn Hw) as Hfit.
  unfold matrix_width. cbn zeta.
  assert (header_cols headers ≤ total_cols_of headers data)%Z
    by (unfold total_cols_of; lia).
  lia.
Qed.

Lemma replicate_rect (n W : nat) : rect W (replicate n (replicate W false)).
Proof. apply Forall_replicate. apply length_replicate. Qed.

Lemma replicate_free (n W r c : nat) :
  r < n → c < W → drawn_at (replicate n (replicate W false)) r c = Some false.
Proof.
  intros Hr Hc. unfold drawn_at.
  rewrite lookup_replicate_2 by done. simpl. by rewrite lookup_replicate_2.
Qed.

Section MergeCoverage.
Context `{PyEnv}.

Lemma header_merge_coverage_run (data : list (dict pyval))
    (columns_order : option (list string))
    (multi_columns : option (list (dict Z)))
    (column_display : option (dict string)) (replace_zero : bool)
    (td : table_data) (s : State) (w : Z) :
  _build_table_data data columns_order multi_columns column_display replace_zero
  = Ok td →
  cell_width (gen s) = Some w →
  let headers := cells_of (td_headers td) in
  let W := matrix_width 150 headers (td_data td) in
  ∃ drawn,
    draw_header_rows 0 headers (replicate (length headers) (replicate W false)) s
    = (Ok (drawn, painted_row <$> headers),
       {| gen := gen s;
          canvas := canvas s ++ (header_paint (gen s) w <$> anchors 0 headers) |}).
Proof.
  intros Hbuild Hw headers W.
  assert (Forall tiled headers) as Htiled.
  { unfold _build_table_data in Hbuild.
    destruct (build_headers _ multi_columns column_display) as [hs | e] eqn:Hhs;
      cbn [mbind result_bind] in Hbuild; [| done].
    destruct (mapM _ data) as [rows | e]; cbn [mbind result_bind] in Hbuild; [| done].
    simplify_eq. by eapply build_headers_tiled. }
  destruct (draw_header_rows_tiled W headers Htiled
              (matrix_width_fits headers (td_data td) Htiled)
              0 (replicate (length headers) (replicate W false)) s w Hw
              (replicate_rect _ _)) as (drawn & Hrun & _).
  { rewrite length_replicate. lia. }
  { intros r' c' _ Hr' Hc'. rewrite length_replicate in Hr'.
    by apply replicate_free. }
  by exists drawn.
Qed.

(** C3 (as amended): on the header grid of a built table no grid
    coordinate lies in the footprint of two anchor cells, and in each
    header row the coordinates covered are exactly those below the
    length of that row: the number of anchors covering [(r, c)] is 1 when
    [c] is less than the length of row [r] and 0 otherwise.  The header
    pass of the compositor paints every anchor once, at its own position
    and in traversal order, paints nothing for a continuation marker, and
    leaves the tracking matrix set exactly on the covered coordinates. *)
Theorem header_merge_coverage (data : list (dict pyval))
    (columns_order : option (list string))
    (multi_columns : option (list (dict Z)))
    (column_display : option (dict string)) (replace_zero : bool)
    (td : table_data) (s : State) (w : Z) :
  _build_table_data data columns_order multi_columns column_display replace_zero
  = Ok td →
  cell_width (gen s) = Some w →
  let headers := cells_of (td_headers td) in
  let W := matrix_width 150 headers (td_data td) in
  (∀ r c, cover_count headers r c
          = if bool_decide (c < row_len headers r) then 1 else 0)
  ∧ ∃ drawn,
      draw_header_rows 0 headers (replicate (length headers) (replicate W false)) s
      = (Ok (drawn, painted_row <$> headers),
         {| gen := gen s;
            canvas := canvas s ++ (header_paint (gen s) w <$> anchors 0 headers) |})
      ∧ ∀ r c, r < length headers → c < W →
               drawn_at drawn r c = Some (bool_decide (c < row_len headers r)).
Proof.
  intros Hbuild Hw headers W.
  assert (Forall tiled headers) as Htiled.
  { unfold _build_table_data in Hbuild.
    destruct (build_headers _ multi_columns column_display) as [hs | e] eqn:Hhs;
      cbn [mbind result_bind] in Hbuild; [| done].
    destruct (mapM _ data) as [rows | e]; cbn [mbind result_bind] in Hbuild; [| done].
    simplify_eq. by eapply build_headers_tiled. }
  split.
  - intros r c. unfold cover_count. rewrite (grid_cover_tiled _ Htiled).
    rewrite Nat.sub_0_r. repeat case_bool_decide; try done; lia.
  - destruct (draw_header_rows_tiled W headers Htiled
                (matrix_width_fits headers (td_data td) Htiled)
                0 (replicate (length headers) (replicate W false)) s w Hw
                (replicate_rect _ _)) as (drawn & Hrun & _ & _ & Hat).
    { rewrite length_replicate. lia. }
    { intros r' c' _ Hr' Hc'. rewrite length_replicate in Hr'.
      by apply replicate_free. }
    exists drawn. split; [done |]. intros r c Hr Hc.
    rewrite Hat, Nat.sub_0_r, replicate_free by done.
    repeat case_bool_decide; try done; lia.
Qed.

End MergeCoverage.

(* ===================================================================== *)
(** * Properties of the Table Compositor: highlight rules                  *)
(* ===================================================================== *)

Lemma prefix_spec (needle hay : string) :
  String.prefix needle hay = true ↔ ∃ post, hay = needle +:+ post.
Proof.
  revert hay. induction needle as [| a needle IH]; intros hay.
  - split; [intros _; by exists hay | by destruct hay].
  - destruct hay as [| b hay]; simpl.
    + split; [done | intros [post [=]]].
    + destruct (ascii_dec a b) as [-> | Hne].
      * rewrite IH. split; intros [post Hpost]; exists post.
        -- simpl. by rewrite Hpost.
        -- simpl in Hpost. by injection Hpost.
      * split; [done | intros [post [=]]; congruence].
Qed.

Lemma is_substring_unfold (needle hay : string) :
  is_substring needle hay
  = String.prefix needle hay
    || match hay with
       | EmptyString => false
       | String _ hay' => is_substring needle hay'
       end.
Proof. by destruct hay. Qed.

Lemma is_substring_spec (needle hay : string) :
  is_substring needle hay = true ↔ ∃ pre post, hay = pre +:+ needle +:+ post.
Proof.
  split.
  - induction hay as [| a hay IH]; rewrite is_substring_unfold, orb_true_iff.
    + intros [Hp | [=]]. apply prefix_spec in Hp as [post ->]. by exists "", post.
    + intros [Hp | Hs].
      * apply prefix_spec in Hp as [post ->]. by exists "", post.
      * destruct (IH Hs) as (pre & post & ->). by exists (String a pre), post.
  - intros (pre & post & ->). induction pre as [| a pre IH].
    + rewrite is_substring_unfold, orb_true_iff. left.
      apply prefix_spec. by exists post.
    + rewrite is_substring_unfold, orb_true_iff. right. exact IH.
Qed.

Lemma find_header_index_spec (headers : list (list (option Cell)))
    (col_name : string) (col_idx : nat) :
  find_header_index headers col_name = Some col_idx
  ↔ ∃ last_row cell,
      last headers = Some last_row
      ∧ last_row !! col_idx = Some (Some cell)
      ∧ text cell = col_name
      ∧ ∀ j cell', j < col_idx → last_row !! j = Some (Some cell') →
                   text cell' ≠ col_name.
Proof.
  unfold find_header_index. destruct (last headers) as [last_row |]; simpl.
  - rewrite fmap_Some. split.
    + intros ([i cell] & Hfind & ->). apply list_find_Some in Hfind as (Hi & Hcell & Hfirst).
      destruct cell as [cell |]; [| done]. simpl in Hcell.
      exists last_row, cell. split; [done |]. split; [done |]. split; [congruence |].
      intros j cell' Hj Hcell' Htext. apply (Hfirst j (Some cell') Hcell' Hj).
      simpl. by rewrite Htext.
    + intros (? & cell & [= <-] & Hi & Htext & Hfirst).
      exists (col_idx, Some cell). split; [| done].
      apply list_find_Some. split; [done |]. split; [simpl; by rewrite Htext |].
      intros j [cell' |] Hcell' Hj; [| done]. simpl. intros [= Heq].
      by apply (Hfirst j cell' Hj Hcell').
  - split; [done | intros (? & ? & [=] & _)].
Qed.

Section Highlight.
Context `{PyEnv}.

Lemma should_highlight_spec (headers : list (list (option Cell)))
    (rules : list (string * pyval)) (row : list string) :
  should_highlight headers rules row = true
  ↔ ∃ col_name keyword col_idx value,
      (col_name, keyword) ∈ rules
      ∧ find_header_index headers col_name = Some col_idx
      ∧ row !! col_idx = Some value
      ∧ is_substring (py_str keyword) value = true.
Proof.
  induction rules as [| [name kw] rules IH].
  - simpl. split; [done |]. intros (? & ? & ? & ? & []%elem_of_nil & _).
  - cbn [should_highlight]. split.
    + intros Hrun.
      destruct (find_header_index headers name) as [i |] eqn:Hfind;
        [destruct (row !! i) as [v |] eqn:Hv;
         [destruct (is_substring (py_str kw) v) eqn:Hsub |] |].
      * exists name, kw, i, v. split; [by left | done].
      * apply IH in Hrun as (n' & k' & i' & v' & Hin & Hrest).
        exists n', k', i', v'. split; [by right | done].
      * apply IH in Hrun as (n' & k' & i' & v' & Hin & Hrest).
        exists n', k', i', v'. split; [by right | done].
      * apply IH in Hrun as (n' & k' & i' & v' & Hin & Hrest).
        exists n', k', i', v'. split; [by right | done].
    + intros (n' & k' & i' & v' & Hin & Hfind & Hv & Hsub).
      apply elem_of_cons in Hin as [[= -> ->] | Hin].
      * by rewrite Hfind, Hv, Hsub.
      * assert (should_highlight headers rules row = true) as Hrest.
        { apply IH. by exists n', k', i', v'. }
        rewrite Hrest.
        destruct (find_header_index headers name) as [i |]; [| done].
        destruct (row !! i) as [v |]; [| done].
        by destruct (is_substring (py_str kw) v).
Qed.

Lemma draw_data_cells_run (headers : list (list (option Cell))) (y : Z)
    (row_idx : nat) (color_column : string) (replace_zero highlight : bool)
    (row : list string) :
  headers ≠ [] →
  ∀ (col_idx : nat) (s : State) (w : Z),
    cell_width (gen s) = Some w →
    draw_data_cells headers y row_idx col_idx color_column replace_zero highlight row s
    = (Ok tt,
       {| gen := gen s;
          canvas := canvas s ++
            (Draw <$> data_paints (gen s) w headers y row_idx col_idx color_column
                        replace_zero highlight row) |}).
Proof.
  intros Hne. induction row as [| cell_text rest IH]; intros col_idx s w Hw.
  - simpl. by rewrite app_nil_r, state_eta.
  - cbn [draw_data_cells data_paints]. rewrite bind_run. unfold lift at 1.
    unfold column_label.
    destruct (column_name_at headers col_idx) as [name | e] eqn:Hname.
    2: { unfold column_name_at in Hname.
         destruct (last headers) eqn:Hlast; [done |].
         by apply last_None in Hlast. }
    rewrite bind_run. unfold self_cell_width at 1. rewrite bind_run.
    unfold get_self at 1. rewrite Hw. cbn [mret M_ret].
    rewrite bind_run. unfold get_self at 1. rewrite bind_run.
    rewrite (draw_cell_run _ _ _ _ _ _ _ _ _ s w Hw). cbv beta iota.
    match goal with
    | |- context [draw_data_cells _ _ _ _ _ _ _ rest ?s1] =>
        rewrite (IH (S col_idx) s1 w Hw)
    end.
    cbn [gen canvas arg_cell fmap list_fmap]. by rewrite <- app_assoc.
Qed.

Lemma data_paints_highlight (g : Generator) (w : Z)
    (headers : list (list (option Cell))) (y : Z) (row_idx : nat)
    (color_column : string) (replace_zero highlight : bool) (row : list string) :
  ∀ col_idx,
    length (data_paints g w headers y row_idx col_idx color_column
              replace_zero highlight row) = length row
    ∧ Forall (λ p, p_highlight p = highlight
                   ∧ p_fill p = if highlight then styles.summary_color
                                else styles.row_colors (Z.of_nat row_idx))
        (data_paints g w headers y row_idx col_idx color_column
           replace_zero highlight row).
Proof.
  induction row as [| cell_text rest IH]; intros col_idx; [done |].
  destruct (IH (S col_idx)) as [Hlen Hall].
  cbn [data_paints length]. split; [by rewrite Hlen |].
  constructor; [done | exact Hall].
Qed.

Lemma draw_data_rows_run (headers : list (list (option Cell)))
    (rules : list (string * pyval)) (color_column : string) (replace_zero : bool)
    (rows : list (list string)) :
  headers ≠ [] →
  ∀ (row_idx : nat) (s : State) (w : Z),
    cell_width (gen s) = Some w →
    draw_data_rows headers rules row_idx color_column replace_zero rows s
    = (Ok tt,
       {| gen := gen s;
          canvas := canvas s ++
            (Draw <$> rows_paints (gen s) w headers rules row_idx color_column
                        replace_zero rows) |}).
Proof.
  intros Hne. induction rows as [| row rest IH]; intros row_idx s w Hw.
  - simpl. by rewrite app_nil_r, state_eta.
  - cbn [draw_data_rows rows_paints]. rewrite bind_run. unfold get_self at 1.
    rewrite bind_run, (draw_data_cells_run _ _ _ _ _ _ _ Hne 0 s w Hw).
    match goal with
    | |- context [draw_data_rows _ _ _ _ _ rest ?s1] =>
        rewrite (IH (S row_idx) s1 w Hw)
    end.
    cbn [gen canvas]. by rewrite fmap_app, app_assoc.
Qed.

(** The paints of the data rows, row by row: as many as the row has
    cells, every one with the flag computed for that row. *)
Lemma rows_paints_by_row (g : Generator) (w : Z)
    (headers : list (list (option Cell))) (rules : list (string * pyval))
    (color_column : string) (replace_zero : bool) (rows : list (list string)) :
  ∀ row_idx,
    ∃ paints : list (list paint),
      rows_paints g w headers rules row_idx color_column replace_zero rows
      = concat paints
      ∧ length paints = length rows
      ∧ ∀ i row, rows !! i = Some row →
          ∃ ps, paints !! i = Some ps
                ∧ length ps = length row
                ∧ Forall (λ p, p_highlight p = should_highlight headers rules row
                               ∧ p_fill p = if should_highlight headers rules row
                                            then styles.summary_color
                                            else styles.row_colors
                                                   (Z.of_nat (row_idx + i)))
                    ps.
Proof.
  induction rows as [| row rest IH]; intros row_idx.
  - exists []. split; [done |]. split; [done |]. intros i row Hi. done.
  - destruct (IH (S row_idx)) as (paints & Heq & Hlen & Hrows).
    cbn [rows_paints].
    destruct (data_paints_highlight g w headers
                (Z.of_nat (length headers) * cell_height g) row_idx color_column
                replace_zero (should_highlight headers rules row) row 0)
      as [Hlen0 Hall0].
    eexists (_ :: paints). split; [by rewrite Heq |].
    split; [cbn [length]; by rewrite Hlen |].
    intros [| i] row' Hi; cbn [lookup list_lookup] in *.
    + injection Hi as <-. eexists. split; [reflexivity |].
      split; [exact Hlen0 |]. by rewrite Nat.add_0_r.
    + destruct (Hrows i row' Hi) as (ps & Hps & Hl & Hall).
      exists ps. split; [exact Hps |]. split; [exact Hl |].
      by replace (row_idx + S i) with (S row_idx + i) by lia.
Qed.

(** C7 (as amended): a data row is highlighted exactly when, for some
    rule [(col_name, keyword)], the FIRST real cell of the last header row
    whose text is [col_name] stands at a position [col_idx] within the
    row and [str(keyword)] is a substring of the row's string at
    [col_idx].  A rule whose column is not the text of any real cell of
    the last header row, or whose position lies beyond the row, is passed
    over without an error.  The row loop of the compositor paints, for
    each data row, one cell per string of the row, each with the flag so
    computed for that row as its [highlight] argument and, accordingly,
    filled with the highlight colour or with the colour of its row. *)
Theorem highlight_rule (headers : list (list (option Cell)))
    (rules : list (string * pyval)) (row : list string) :
  (should_highlight headers rules row = true
   ↔ ∃ col_name keyword col_idx value,
       (col_name, keyword) ∈ rules
       ∧ find_header_index headers col_name = Some col_idx
       ∧ row !! col_idx = Some value
       ∧ is_substring (py_str keyword) value = true)
  ∧ (∀ col_name col_idx,
       find_header_index headers col_name = Some col_idx
       ↔ ∃ last_row cell,
           last headers = Some last_row
           ∧ last_row !! col_idx = Some (Some cell)
           ∧ text cell = col_name
           ∧ ∀ j cell', j < col_idx → last_row !! j = Some (Some cell') →
                        text cell' ≠ col_name)
  ∧ (∀ needle hay,
       is_substring needle hay = true ↔ ∃ pre post, hay = pre +:+ needle +:+ post)
  ∧ (∀ (s : State) (w : Z) (color_column : string) (replace_zero : bool)
       (rows : list (list string)),
       cell_width (gen s) = Some w → headers ≠ [] →
       ∃ paints : list (list paint),
         draw_data_rows headers rules 0 color_column replace_zero rows s
         = (Ok tt, {| gen := gen s;
                      canvas := canvas s ++ (Draw <$> concat paints) |})
         ∧ length paints = length rows
         ∧ ∀ i row, rows !! i = Some row →
             ∃ ps, paints !! i = Some ps
                   ∧ length ps = length row
                   ∧ Forall (λ p, p_highlight p = should_highlight headers rules row
                                  ∧ p_fill p = if should_highlight headers rules row
                                               then styles.summary_color
                                               else styles.row_colors (Z.of_nat i))
                       ps).
Proof.
  split; [apply should_highlight_spec |].
  split; [intros; apply find_header_index_spec |].
  split; [intros; apply is_substring_spec |].
  intros s w color_column replace_zero rows Hw Hne.
  destruct (rows_paints_by_row (gen s) w headers rules color_column replace_zero
              rows 0) as (paints & Heq & Hlen & Hrows).
  exists paints. split; [| split; [exact Hlen | exact Hrows]].
  rewrite (draw_data_rows_run headers rules color_column replace_zero rows Hne
             0 s w Hw).
  by rewrite Heq.
Qed.

End Highlight.

(* ===================================================================== *)
(** * Properties of the render pipeline: scaling state                     *)
(* ===================================================================== *)

Section ScalingState.
Context `{PyEnv}.

Lemma keeps_self_header_row (r : nat) (row : list (option Cell)) :
  ∀ c d, keeps_self (draw_header_row r c row d).
Proof.
  induction row as [| cell row IH]; intros c d; cbn [draw_header_row].
  - apply keeps_self_ret.
  - apply keeps_self_bind.
    + destruct cell as [cell |]; [| apply keeps_self_ret].
      destruct (drawn_at d r c) as [[] |];
        [apply keeps_self_ret | | apply keeps_self_raise].
      apply keeps_self_bind; [apply keeps_self_cell_width | intros w].
      apply keeps_self_bind; [apply keeps_self_get | intros g].
      apply keeps_self_bind; [apply keeps_self_draw_cell | intros c'].
      apply keeps_self_ret.
    + intros [d' cell']. apply keeps_self_bind; [apply IH |].
      intros [d'' rest']. apply keeps_self_ret.
Qed.

Lemma keeps_self_header_rows (headers : list (list (option Cell))) :
  ∀ r d, keeps_self (draw_header_rows r headers d).
Proof.
  induction headers as [| row rest IH]; intros r d; cbn [draw_header_rows].
  - apply keeps_self_ret.
  - apply keeps_self_bind; [apply keeps_self_header_row |].
    intros [d' row']. apply keeps_self_bind; [apply IH |].
    intros [d'' rest']. apply keeps_self_ret.
Qed.

Lemma keeps_self_data_cells (headers : list (list (option Cell))) (y : Z)
    (row_idx : nat) (color_column : string) (replace_zero highlight : bool)
    (row : list string) :
  ∀ col_idx,
    keeps_self (draw_data_cells headers y row_idx col_idx color_column
                  replace_zero highlight row).
Proof.
  induction row as [| cell_text rest IH]; intros col_idx; cbn [draw_data_cells].
  - apply keeps_self_ret.
  - apply keeps_self_bind; [apply keeps_self_lift | intros name].
    apply keeps_self_bind; [apply keeps_self_cell_width | intros w].
    apply keeps_self_bind; [apply keeps_self_get | intros g].
    apply keeps_self_bind; [apply keeps_self_draw_cell | intros c]. apply IH.
Qed.

Lemma keeps_self_data_rows (headers : list (list (option Cell)))
    (rules : list (string * pyval)) (color_column : string) (replace_zero : bool)
    (rows : list (list string)) :
  ∀ row_idx,
    keeps_self (draw_data_rows headers rules row_idx color_column replace_zero rows).
Proof.
  induction rows as [| row rest IH]; intros row_idx; cbn [draw_data_rows].
  - apply keeps_self_ret.
  - apply keeps_self_bind; [apply keeps_self_get | intros g].
    apply keeps_self_bind; [apply keeps_self_data_cells | intros []]. apply IH.
Qed.

(** What a returning call of [_calculate_table_size] has done. *)
Lemma calculate_table_size_ok (headers : list (list (option Cell)))
    (data : list (list string)) (s s' : State) (size : Z * Z) :
  _calculate_table_size headers data s = (Ok size, s') →
  data ≠ [] ∧ total_cols_of headers data ≠ 0%Z
  ∧ s' = {| gen := with_cell_width
                     (Some (fit_cell_width (total_cols_of headers data))) (gen s);
            canvas := canvas s |}.
Proof.
  unfold _calculate_table_size. rewrite bind_run. unfold lift at 1.
  destruct data as [| row rest]; [done |].
  rewrite (max_row_len_largest (row :: rest)) by done.
  fold (total_cols_of headers (row :: rest)).
  destruct (Z.eqb_spec (total_cols_of headers (row :: rest)) 0) as [Hz | Hnz]; [done |].
  intros [= _ <-]. done.
Qed.

End ScalingState.

(** No record, no column retained. *)
Lemma filtered_columns_no_records (columns_order : option (list string)) :
  filtered_columns [] columns_order
  = if seq_truthy columns_order then Some [] else None.
Proof.
  destruct columns_order as [[| c cols] |]; [done | | done].
  rewrite filtered_columns_retained by done. cbn [seq_truthy]. f_equal.
  induction (c :: cols) as [| x l IH]; [done |].
  rewrite filter_cons, decide_False by done. exact IH.
Qed.

(** Without filtered columns the layer loops can only fail on
    [len(filtered_columns)], a [TypeError]. *)
Lemma count_valid_type_error (pos : Z) (indices : list nat) (v : Z) (e : exn) :
  count_valid None pos indices v = Raise e → e = TypeError.
Proof. destruct indices; simpl; congruence. Qed.

Lemma layer_items_type_error (items : list (string * Z)) :
  ∀ pos row e, layer_items None items pos row = Raise e → e = TypeError.
Proof.
  induction items as [| [header span] rest IH]; intros pos row e Hrun; [done |].
  cbn [layer_items] in Hrun.
  destruct (count_valid None pos (range span) 0) as [v | e'] eqn:Hv;
    cbn [mbind result_bind] in Hrun.
  - by eapply IH.
  - apply count_valid_type_error in Hv. congruence.
Qed.

Lemma layer_rows_type_error (multi : list (dict Z)) :
  ∀ pos headers e, layer_rows None multi pos headers = Raise e → e = TypeError.
Proof.
  induction multi as [| layer rest IH]; intros pos headers e Hrun; [done |].
  cbn [layer_rows] in Hrun.
  destruct (layer_items None (dict_items layer) pos []) as [[pos' row] | e'] eqn:Hrow;
    cbn [mbind result_bind] in Hrun.
  - by eapply IH.
  - apply layer_items_type_error in Hrow. congruence.
Qed.

Section RenderState.
Context `{PyEnv}.

(** The builder on no records: it returns whenever a column order is
    given, and otherwise fails, if it does, with a [TypeError]. *)
Lemma built_no_records (a : render_args) :
  a_data a = [] →
  (∀ td, built a = Ok td → td_data td = [])
  ∧ (∀ e, built a = Raise e → e = TypeError)
  ∧ (seq_truthy (a_columns_order a) = true → is_ok (built a) = true)
  ∧ (seq_truthy (a_columns_order a) = false →
     seq_truthy (a_multi_columns a) = false → built a = Raise TypeError).
Proof.
  intros Hdata. unfold built, _build_table_data. rewrite Hdata.
  rewrite filtered_columns_no_records.
  destruct (seq_truthy (a_columns_order a)) eqn:Horder; cbn [mapM].
  - assert (∃ hs, build_headers (Some []) (a_multi_columns a) (a_column_display a)
                  = Ok hs) as [hs ->].
    { unfold build_headers. destruct (seq_truthy (a_multi_columns a)).
      - destruct (layer_rows_ok [] (default [] (a_multi_columns a)) 0 []) as [hs ->].
        cbn [mbind result_bind seq_truthy]. rewrite andb_false_r. eauto.
      - cbn [mapM mbind result_bind]. eauto. }
    cbn [mbind result_bind]. split; [by intros td [= <-] |].
    split; [done |]. split; done.
  - split; [| split; [| split; [done |]]].
    + intros td.
      destruct (build_headers None _ _); cbn [mbind result_bind]; [| done].
      by intros [= <-].
    + intros e. unfold build_headers.
      destruct (seq_truthy (a_multi_columns a)).
      * destruct (layer_rows None _ 0 []) as [hs | e'] eqn:Hrows;
          cbn [mbind result_bind]; [by rewrite andb_false_r |].
        apply layer_rows_type_error in Hrows. congruence.
      * cbn [mbind result_bind]. congruence.
    + intros _ Hmulti. unfold build_headers. by rewrite Hmulti.
Qed.

(** [self] after a returning call of [_create_table]: the cell width is
    the unscaled width computed for this table, the cell height and the
    font size are the ones found on entry, and the fonts are loaded at
    that font size again. *)
Lemma create_table_self (table : table_data) (color_column : string)
    (replace_zero : bool) (highlight_rules : option (dict pyval)) (dpi : Z)
    (s s' : State) (image : Image) :
  _create_table table color_column replace_zero highlight_rules dpi s
  = (Ok image, s') →
  td_data table ≠ []
  ∧ gen s' = {| cell_width :=
                  Some (fit_cell_width
                          (total_cols_of (cells_of (td_headers table)) (td_data table)));
                cell_height := cell_height (gen s);
                font_size := font_size (gen s);
                fonts := font_size (gen s) |}.
Proof.
  unfold _create_table. intros Hrun.
  apply bind_ok_inv in Hrun as ([base_width base_height] & s1 & Hsize & Hrun).
  apply calculate_table_size_ok in Hsize as (Hdata & Hcols & ->).
  split; [done |].
  set (n := total_cols_of _ _) in *.
  cbv [mbind M_bind emit get_self self_cell_width set_self load_fonts
       mret M_ret raise gen canvas cell_width with_cell_width cell_height
       font_size fonts] in Hrun.
  destruct (scaled dpi (fit_cell_width n) =? 0)%Z; [done |].
  destruct (draw_header_rows _ _ _ _) as [[[drawn headers'] | e] s2];
    cbv beta iota in Hrun; [| done].
  destruct (draw_data_rows _ _ _ _ _ _ _) as [[[] | e] s3];
    cbv beta iota in Hrun; [| done].
  by injection Hrun as _ <-.
Qed.

Lemma render_self (a : render_args) (s s' : State) :
  render a s = (Ok tt, s') →
  ∃ td, built a = Ok td
        ∧ td_data td ≠ []
        ∧ gen s' = {| cell_width := Some (table_cell_width td);
                      cell_height := cell_height (gen s);
                      font_size := font_size (gen s);
                      fonts := font_size (gen s) |}.
Proof.
  unfold render, create_table_image, built. intros Hrun.
  apply bind_ok_inv in Hrun as (td & s1 & Hbuild & Hrun).
  unfold lift in Hbuild. injection Hbuild as Hbuild <-.
  apply bind_ok_inv in Hrun as (image & s2 & Htable & Hrun).
  apply create_table_self in Htable as [Hdata Hgen].
  exists td. split; [done |]. split; [done |].
  unfold table_cell_width. rewrite <- fit_cell_width_clamp, <- Hgen.
  apply bind_ok_inv in Hrun as ([] & s3 & Hsave & Hrun).
  unfold emit in Hsave. injection Hsave as <-.
  destruct (a_banner a).
  - apply bind_ok_inv in Hrun as ([] & s4 & Hsave & Hrun).
    apply bind_ok_inv in Hrun as ([] & s5 & Hmerge & Hrun).
    unfold emit in *. by simplify_eq.
  - unfold emit in Hrun. by simplify_eq.
Qed.

(** C4 (as amended): after each of two render calls in sequence that
    return, the cell height and the font size of the instance are the
    ones it had before the first call, and the fonts are loaded at that
    size; the cell width is not put back to its value before the call
    but left at the unscaled width the Grid Geometry Calculator computed
    for the table of that call. *)
Theorem render_twice_restores (a1 a2 : render_args) (s0 s1 s2 : State) :
  render a1 s0 = (Ok tt, s1) →
  render a2 s1 = (Ok tt, s2) →
  (cell_height (gen s1) = cell_height (gen s0)
   ∧ font_size (gen s1) = font_size (gen s0)
   ∧ fonts (gen s1) = font_size (gen s0))
  ∧ (cell_height (gen s2) = cell_height (gen s0)
     ∧ font_size (gen s2) = font_size (gen s0)
     ∧ fonts (gen s2) = font_size (gen s0))
  ∧ (∃ td1, built a1 = Ok td1 ∧ cell_width (gen s1) = Some (table_cell_width td1))
  ∧ (∃ td2, built a2 = Ok td2 ∧ cell_width (gen s2) = Some (table_cell_width td2)).
Proof.
  intros (td1 & Hb1 & _ & Hg1)%render_self (td2 & Hb2 & _ & Hg2)%render_self.
  rewrite Hg2, Hg1. cbn [cell_height font_size fonts cell_width].
  split; [done |]. split; [done |]. split; [by exists td1 | by exists td2].
Qed.

(** C10 (as amended): with an empty list of records the render call
    raises, whatever the other arguments, and it does so with the
    generator and the drawing surface untouched: no image has been
    created, drawn on or saved.  When the builder returns, which it
    always does when a column order is given, the exception is the
    [ValueError] of [max()] over the empty sequence of row lengths in
    the grid-size calculation.  When it does not, the exception is the
    builder's [TypeError] and the grid-size calculation is not reached:
    so it is when neither a column order nor a multi-level header is
    given. *)
Theorem empty_records_fail (a : render_args) (s : State) :
  a_data a = [] →
  (∃ e, render a s = (Raise e, s)
        ∧ (is_ok (built a) = true → e = ValueError)
        ∧ (is_ok (built a) = false → e = TypeError ∧ built a = Raise TypeError))
  ∧ (seq_truthy (a_columns_order a) = true → is_ok (built a) = true)
  ∧ (seq_truthy (a_columns_order a) = false →
     seq_truthy (a_multi_columns a) = false → built a = Raise TypeError)
  ∧ (∀ headers, _calculate_table_size headers [] s = (Raise ValueError, s)).
Proof.
  intros Hdata.
  destruct (built_no_records a Hdata) as (Hrows & Herr & Horder & Hdefault).
  split; [| split; [exact Horder | split; [exact Hdefault | done]]].
  unfold render, create_table_image. fold (built a). rewrite bind_run. unfold lift.
  destruct (built a) as [td | e] eqn:Hbuilt.
  - exists ValueError. split; [| split; [done | done]].
    rewrite bind_run. unfold _create_table.
    rewrite bind_run, (Hrows td eq_refl). reflexivity.
  - exists e. split; [done |]. split; [done |]. intros _.
    by rewrite (Herr e eq_refl).
Qed.

End RenderState.


(* ===================================================================== *)
(** * The render pass on a built table, end to end                         *)
(* ===================================================================== *)

Section RenderPass.
Context `{PyEnv}.

Lemma calculate_table_size_run (headers : list (list (option Cell)))
    (data : list (list string)) (s : State) :
  data ≠ [] → total_cols_of headers data ≠ 0%Z →
  let n := total_cols_of headers data in
  _calculate_table_size headers data s
  = (Ok ((n * fit_cell_width n + 1)%Z,
         ((Z.of_nat (length headers) + Z.of_nat (length data))
          * cell_height (gen s) + 1)%Z),
     {| gen := with_cell_width (Some (fit_cell_width n)) (gen s);
        canvas := canvas s |}).
Proof.
  intros Hdata Hcols n. unfold _calculate_table_size.
  rewrite bind_run. unfold lift at 1.
  rewrite (max_row_len_largest data Hdata).
  fold (total_cols_of headers data). fold n.
  destruct (Z.eqb_spec n 0) as [Hz | _]; [done |]. reflexivity.
Qed.

(** On a built table with at least one header row, one data row and one
    column, [_create_table] at 150 dpi returns; it leaves on the surface
    the new canvas, then one paint per header anchor, then one paint per
    data cell, and it leaves [self] restored. *)
Lemma create_table_run (data : list (dict pyval))
    (columns_order : option (list string))
    (multi_columns : option (list (dict Z)))
    (column_display : option (dict string)) (replace_zero : bool)
    (td : table_data) (color_column : string)
    (highlight_rules : option (dict pyval)) (s : State) :
  _build_table_data data columns_order multi_columns column_display replace_zero
  = Ok td →
  td_headers td ≠ [] → td_data td ≠ [] →
  let headers := cells_of (td_headers td) in
  let n := total_cols_of headers (td_data td) in
  n ≠ 0%Z →
  let g := scaled_self 150 n (gen s) in
  let w := scaled 150 (fit_cell_width n) in
  let width := scaled 150 (n * fit_cell_width n + 1) in
  let height :=
    scaled 150 ((Z.of_nat (length headers) + Z.of_nat (length (td_data td)))
                * cell_height (gen s) + 1) in
  _create_table td color_column replace_zero highlight_rules 150 s
  = (Ok {| img_width := width; img_height := height |},
     {| gen := restored_self n (gen s);
        canvas :=
          canvas s ++ [NewImage width height]
          ++ (header_paint g w <$> anchors 0 headers)
          ++ (Draw <$> rows_paints g w (painted_row <$> headers)
                         (default [] highlight_rules) 0 color_column
                         replace_zero (td_data td)) |}).
Proof.
  intros Hbuild Hheaders Hdata headers n Hn g w width height.
  assert (headers ≠ []) as Hhs.
  { unfold headers, cells_of. by destruct (td_headers td). }
  subst headers. set (hs := cells_of (td_headers td)) in *.
  assert (w ≠ 0%Z) as Hw0.
  { unfold w, scaled. pose proof (fit_cell_width_range n) as [Hlo _].
    rewrite Z.quot_div_nonneg by lia.
    assert (0 < fit_cell_width n * 150 / 72)%Z by (apply Z.div_str_pos; lia). lia. }
  set (s1 := {| gen := g; canvas := canvas s ++ [NewImage width height] |}).
  destruct (header_merge_coverage_run data columns_order multi_columns
              column_display replace_zero td s1 w Hbuild eq_refl)
    as (drawn & Hheader).
  cbv zeta in Hheader. fold hs in Hheader.
  assert (painted_row <$> hs ≠ []) as Hpainted.
  { by destruct hs. }
  pose proof (draw_data_rows_run (painted_row <$> hs)
                (default [] highlight_rules) color_column replace_zero
                (td_data td) Hpainted 0
                {| gen := gen s1;
                   canvas := canvas s1 ++ (header_paint (gen s1) w <$> anchors 0 hs) |}
                w eq_refl) as Hrows.
  unfold _create_table. fold hs. rewrite bind_run.
  rewrite (calculate_table_size_run hs (td_data td) s Hdata Hn).
  fold n. fold width height.
  cbv [mbind M_bind emit get_self self_cell_width set_self load_fonts
       mret M_ret raise with_cell_width].
  cbn [gen canvas cell_width cell_height font_size fonts].
  fold w. destruct (Z.eqb_spec w 0) as [Hz | _]; [done |].
  change (Z.to_nat (width `div` w)) with (matrix_width 150 hs (td_data td)).
  change {| gen := _; canvas := canvas s ++ [NewImage width height] |} with s1.
  rewrite Hheader. cbv beta iota. rewrite Hrows. cbn [gen canvas].
  unfold s1, restored_self. cbn [gen canvas]. by rewrite <- !app_assoc.
Qed.

End RenderPass.

(* ===================================================================== *)
(** * The last header row and the lookup of column names                   *)
(* ===================================================================== *)

Lemma names_past (col_idx : nat) (row : list (option Cell)) :
  ∀ k, col_idx < k →
    omap (λ '(i, cell),
            match cell with
            | Some c => if (i =? col_idx)%nat then Some (text c) else None
            | None => None
            end) (enumerate_from k row) = [].
Proof.
  induction row as [| cell row IH]; intros k Hk; [done |].
  cbn [enumerate_from omap list_omap]. rewrite IH by lia.
  destruct cell as [c |]; [| done].
  destruct (Nat.eqb_spec k col_idx); [lia | done].
Qed.

Lemma names_from (col_idx : nat) (row : list (option Cell)) :
  ∀ k, k ≤ col_idx →
    head (omap (λ '(i, cell),
                  match cell with
                  | Some c => if (i =? col_idx)%nat then Some (text c) else None
                  | None => None
                  end) (enumerate_from k row))
    = (row !! (col_idx - k)) ≫= fmap text.
Proof.
  induction row as [| cell row IH]; intros k Hk; [done |].
  cbn [enumerate_from omap list_omap].
  destruct (Nat.eqb_spec k col_idx) as [-> | Hne].
  - rewrite Nat.sub_diag. rewrite names_past by lia. by destruct cell.
  - replace (col_idx - k) with (S (col_idx - S k)) by lia.
    cbn [lookup list_lookup]. rewrite <- IH by lia. by destruct cell.
Qed.



Section ColumnNames.
Context `{PyEnv}.


End ColumnNames.

(* ===================================================================== *)
(** * Worked examples                                                      *)
(* ===================================================================== *)

Section WorkedExamples.
Import RefEnv Examples.

(** ** Value Formatter *)

(** Under the format kind of the source a zero timestamp is a date. *)
Lemma process_value_precedence_witness :
  VInt 0 ≠ VNone ∧ VInt 0 ≠ VStr ""
  ∧ format_pattern (Some "to_format") = Some "%Y-%m-%d %H:%M:%S"
  ∧ py_int (VInt 0) = Ok 0%Z
  ∧ strftime_local "%Y-%m-%d %H:%M:%S" 0 = Ok "1970-01-01 00:00:00"
  ∧ _process_value (VInt 0) true (Some "to_format") = Ok "1970-01-01 00:00:00".
Proof.
  split; [discriminate |]. split; [discriminate |]. split; [reflexivity |].
  split; [reflexivity |]. split; [reflexivity |].
  apply (proj1 (proj2 (process_value_precedence (VInt 0) true (Some "to_format"))
                  ltac:(discriminate) ltac:(discriminate))
           "%Y-%m-%d %H:%M:%S" 0%Z "1970-01-01 00:00:00");
    reflexivity.
Defined.

(** The token ["to_datetime"] is no format kind of the source: the zero
    falls through to the zero replacement and comes back as the
    placeholder. *)
Lemma process_value_to_datetime_token :
  _process_value (VInt 0) true (Some "to_datetime") = Ok "-".
Proof. reflexivity. Qed.

(** ** Grid Geometry Calculator *)

Lemma calculate_table_size_geometry_witness :
  [[Some (mkCell "h" 1 3)]] ≠ [] ∧ [["x"; "y"; "z"]] ≠ []
  ∧ _calculate_table_size [[Some (mkCell "h" 1 3)]] [["x"; "y"; "z"]] fresh
    = (Ok (721%Z, 121%Z),
       {| gen := with_cell_width (Some 240%Z) init_generator; canvas := [] |}).
Proof.
  split; [discriminate |]. split; [discriminate |].
  apply (proj1 (calculate_table_size_geometry
                  [[Some (mkCell "h" 1 3)]] [["x"; "y"; "z"]] fresh
                  ltac:(discriminate) ltac:(discriminate) ltac:(reflexivity))).
Defined.

(** ** Column pruning *)



(** ** Table Data Builder *)

(** The end-to-end scenario goes through once [column_display] is an
    empty mapping instead of [None]. *)
Lemma end_to_end_scenario_with_empty_mapping :
  _build_table_data scores (Some ["name"; "score"]) None (Some []) true
  = Ok {| td_headers := [[RDict "name" 1 1; RDict "score" 1 1]];
          td_data := [["A"; "-"]; ["B"; "5"]] |}.
Proof. vm_compute. reflexivity. Qed.

(** Without [columns_order] the values go through [str] alone: the zero
    stays ["0"] and [None] becomes ["None"], where the Value Formatter
    gives the placeholder for both. *)
Lemma unfiltered_rows_not_formatted :
  _build_table_data [[("a", VInt 0); ("b", VNone)]] None (Some [[]]) None true
  = Ok {| td_headers := []; td_data := [["0"; "None"]] |}
  ∧ _process_value (VInt 0) true None = Ok "-"
  ∧ _process_value VNone true None = Ok "-".
Proof. repeat split; vm_compute; reflexivity. Qed.

Lemma unfiltered_rows_witness :
  Some [[]] = Some [([] : dict Z)] ∧ [([] : dict Z)] ≠ []
  ∧ no_positive_span [[]]
  ∧ _build_table_data [[("a", VInt 0); ("b", VNone)]] None (Some [[]]) None true
    = Ok {| td_headers := [];
            td_data := [[py_str (VInt 0); py_str VNone]] |}.
Proof.
  split; [reflexivity |]. split; [discriminate |].
  split; [repeat constructor |].
  apply (proj2 (unfiltered_rows [[("a", VInt 0); ("b", VNone)]] (Some [[]]) None true)
           [[]] eq_refl ltac:(discriminate) ltac:(repeat constructor)).
Defined.



(** ** Header pass *)

(** A layer that spans one column out of two: the coordinate (0, 1) lies
    within the two columns of the table and under no anchor. *)
Lemma header_gap_counterexample :
  ∃ td,
    _build_table_data one_record (Some ["a"; "b"]) (Some [[("G", 1%Z)]])
      (Some [("a", "A")]) false = Ok td
    ∧ total_cols_of (cells_of (td_headers td)) (td_data td) = 2%Z
    ∧ cover_count (cells_of (td_headers td)) 0 1 = 0.
Proof.
  eexists. split; [vm_compute; reflexivity |]. split; vm_compute; reflexivity.
Qed.

Lemma header_merge_coverage_witness :
  _build_table_data one_record (Some ["a"; "b"]) (Some [[("G", 2%Z)]])
    (Some [("a", "A")]) false
  = Ok {| td_headers := [[RDict "G" 2 1; RNull]; [RDict "A" 1 1; RDict "b" 1 1]];
          td_data := [["1"; "2"]] |}
  ∧ cell_width (gen scaled_state) = Some 500%Z
  ∧ ∀ r c,
      cover_count
        (cells_of [[RDict "G" 2 1; RNull]; [RDict "A" 1 1; RDict "b" 1 1]]) r c
      = if bool_decide
             (c < row_len
                    (cells_of [[RDict "G" 2 1; RNull]; [RDict "A" 1 1; RDict "b" 1 1]])
                    r)
        then 1 else 0.
Proof.
  assert (_build_table_data one_record (Some ["a"; "b"]) (Some [[("G", 2%Z)]])
            (Some [("a", "A")]) false
          = Ok {| td_headers := [[RDict "G" 2 1; RNull]; [RDict "A" 1 1; RDict "b" 1 1]];
                  td_data := [["1"; "2"]] |}) as Hbuild
    by (vm_compute; reflexivity).
  split; [exact Hbuild |]. split; [reflexivity |].
  exact (proj1 (header_merge_coverage one_record (Some ["a"; "b"])
                  (Some [[("G", 2%Z)]]) (Some [("a", "A")]) false _
                  scaled_state 500%Z Hbuild eq_refl)).
Defined.

(** ** Highlight rules *)

(** Two columns displayed under the same label: the rule looks at the
    first one only, so the row is not highlighted although the second
    column is labelled ["S"] and holds the keyword. *)
Lemma highlight_duplicate_label :
  _build_table_data [[("a", VStr "ok"); ("b", VStr "FAIL")]] (Some ["a"; "b"])
    None (Some [("a", "S"); ("b", "S")]) false
  = Ok {| td_headers := [[RDict "S" 1 1; RDict "S" 1 1]];
          td_data := [["ok"; "FAIL"]] |}
  ∧ should_highlight (cells_of [[RDict "S" 1 1; RDict "S" 1 1]])
      [("S", VStr "FAIL")] ["ok"; "FAIL"] = false
  ∧ cells_of [[RDict "S" 1 1; RDict "S" 1 1]]
    = [[Some (mkCell "S" 1 1); Some (mkCell "S" 1 1)]]
  ∧ is_substring "FAIL" "FAIL" = true.
Proof. repeat split; vm_compute; reflexivity. Qed.

Lemma highlight_rule_witness :
  cell_width (gen scaled_state) = Some 500%Z
  ∧ [[Some (mkCell "Status" 1 1)]] ≠ []
  ∧ should_highlight [[Some (mkCell "Status" 1 1)]] [("Status", VStr "FAIL")]
      ["FAILED"] = true
  ∧ ∃ paints : list (list paint),
      draw_data_rows [[Some (mkCell "Status" 1 1)]] [("Status", VStr "FAIL")] 0 ""
        false [["FAILED"]; ["PASSED"]] scaled_state
      = (Ok tt, {| gen := gen scaled_state;
                   canvas := canvas scaled_state ++ (Draw <$> concat paints) |})
      ∧ length paints = 2.
Proof.
  split; [reflexivity |]. split; [discriminate |].
  pose proof (highlight_rule [[Some (mkCell "Status" 1 1)]]
                [("Status", VStr "FAIL")] ["FAILED"]) as (Hflag & _ & _ & Hloop).
  split.
  - apply Hflag. exists "Status", (VStr "FAIL"), 0, "FAILED".
    split; [by left |]. repeat split; reflexivity.
  - assert ([[Some (mkCell "Status" 1 1)]] ≠ []) as Hne by discriminate.
    destruct (Hloop scaled_state 500%Z "" false [["FAILED"]; ["PASSED"]]
                eq_refl Hne) as (paints & Hrun & Hlen & _).
    exists paints. split; [exact Hrun | exact Hlen].
Defined.

(** ** Scaling state *)

(** The first render on a fresh instance: the cell width goes from [None]
    to 240 and stays there. *)
Lemma cell_width_not_restored :
  ∃ s1, render scores_args fresh = (Ok tt, s1)
        ∧ cell_width (gen fresh) = None
        ∧ cell_width (gen s1) = Some 240%Z.
Proof.
  eexists. split; [vm_compute; reflexivity |]. split; reflexivity.
Qed.

Lemma render_twice_restores_witness :
  ∃ s1 s2,
    render scores_args fresh = (Ok tt, s1)
    ∧ render scores_args s1 = (Ok tt, s2)
    ∧ cell_height (gen s2) = cell_height (gen fresh)
    ∧ font_size (gen s2) = font_size (gen fresh).
Proof.
  destruct (render scores_args fresh) as [[[] | e] s1] eqn:H1;
    [| vm_compute in H1; discriminate].
  destruct (render scores_args s1) as [[[] | e] s2] eqn:H2.
  - exists s1, s2. split; [reflexivity |]. split; [exact H2 |].
    destruct (render_twice_restores scores_args scores_args fresh s1 s2 H1 H2)
      as (_ & (Hh & Hf & _) & _).
    split; [exact Hh | exact Hf].
  - exfalso. vm_compute in H1. injection H1 as <-. vm_compute in H2. discriminate.
Defined.

(** The end-to-end scenario on a fresh instance: a canvas of 1002 x 377
    pixels (481 x 181 at 150 dpi), the two header cells, then the four
    data cells. *)
Lemma scenario_surface :
  ∃ s1, render scores_args fresh = (Ok tt, s1)
        ∧ head (canvas s1) = Some (NewImage 1002 377)
        ∧ painted_texts (canvas s1) = ["name"; "score"; "A"; "-"; "B"; "5"]
        ∧ last (canvas s1) = Some (Save FinalFile).
Proof.
  eexists. split; [vm_compute; reflexivity |]. repeat split; reflexivity.
Qed.

(** ** Empty records *)

Lemma empty_records_fail_witness :
  a_data no_records_ordered_args = []
  ∧ render no_records_ordered_args fresh = (Raise ValueError, fresh).
Proof.
  split; [reflexivity |].
  destruct (empty_records_fail no_records_ordered_args fresh eq_refl)
    as ((e & Hrun & Hvalue & _) & Hordered & _).
  by rewrite Hrun, (Hvalue (Hordered eq_refl)).
Defined.

(** The call with every option left at its default: the builder raises
    on the missing column order, and the exception that leaves the call
    is not the one of the grid-size calculation. *)
Lemma empty_records_default_call :
  built no_records_args = Raise TypeError
  ∧ render no_records_args fresh = (Raise TypeError, fresh)
  ∧ _calculate_table_size [] [] fresh = (Raise ValueError, fresh).
Proof. repeat split; vm_compute; reflexivity. Qed.

End WorkedExamples.

(* ===================================================================== *)
(** * Colours                                                              *)
(* ===================================================================== *)

Lemma all_ascii_complete (a : ascii) : a ∈ all_ascii.
Proof.
  unfold all_ascii. rewrite <- (ascii_nat_embedding a).
  apply list_elem_of_fmap_2. apply elem_of_seq.
  pose proof (nat_ascii_bounded a). lia.
Qed.

Lemma hex_pairs_checked :
  forallb (λ a, forallb (hex_pair_ok a) all_ascii) all_ascii = true.
Proof. vm_compute. reflexivity. Qed.

Lemma hex_pair_value (a b : ascii) (va vb : Z) :
  hex_digit_value a = Some va → hex_digit_value b = Some vb →
  int_base16 (String a (String b EmptyString)) = Some (16 * va + vb)%Z
  ∧ Ascii.eqb a "#" = false.
Proof.
  intros Ha Hb.
  pose proof hex_pairs_checked as Hall.
  rewrite forallb_forall in Hall.
  specialize (Hall a (proj1 (list_elem_of_In _ _) (all_ascii_complete a))).
  rewrite forallb_forall in Hall.
  specialize (Hall b (proj1 (list_elem_of_In _ _) (all_ascii_complete b))).
  unfold hex_pair_ok in Hall. rewrite Ha, Hb in Hall.
  apply andb_true_iff in Hall as [Hval Hhash].
  apply bool_decide_eq_true in Hval. split; [done |].
  by apply negb_true_iff.
Qed.

Lemma hex_digit_range (a : ascii) (v : Z) :
  hex_digit_value a = Some v → (0 ≤ v ≤ 15)%Z.
Proof.
  unfold hex_digit_value. intros Hv.
  repeat match type of Hv with
         | (if ?c then _ else _) = _ =>
             let Hc := fresh "Hc" in
             destruct c eqn:Hc;
             [apply andb_true_iff in Hc as [?%Nat.leb_le ?%Nat.leb_le] |]
         end; simplify_eq; lia.
Qed.

Lemma lstrip_hash_hashes (k : nat) (a : ascii) (s : string) :
  Ascii.eqb a "#" = false →
  lstrip_hash (hashes k +:+ String a s) = String a s.
Proof.
  intros Ha. induction k as [| k IH]; simpl; [by rewrite Ha | exact IH].
Qed.

Lemma substring_0_0 (s : string) : substring 0 0 s = EmptyString.
Proof. by destruct s. Qed.

(** X1: after any number of leading [#], six hexadecimal digits (of
    either case) give the three bytes they spell, each between 0 and 255;
    whatever follows the sixth digit is ignored. *)
Theorem hex_to_rgb_six_digits (k : nat) (a1 a2 a3 a4 a5 a6 : ascii)
    (v1 v2 v3 v4 v5 v6 : Z) (rest : string) :
  hex_digit_value a1 = Some v1 → hex_digit_value a2 = Some v2 →
  hex_digit_value a3 = Some v3 → hex_digit_value a4 = Some v4 →
  hex_digit_value a5 = Some v5 → hex_digit_value a6 = Some v6 →
  _hex_to_rgb (hashes k +:+
               String a1 (String a2 (String a3 (String a4 (String a5 (String a6 rest))))))
  = Ok ((16 * v1 + v2)%Z, (16 * v3 + v4)%Z, (16 * v5 + v6)%Z)
  ∧ (0 ≤ 16 * v1 + v2 ≤ 255)%Z ∧ (0 ≤ 16 * v3 + v4 ≤ 255)%Z
  ∧ (0 ≤ 16 * v5 + v6 ≤ 255)%Z.
Proof.
  intros H1 H2 H3 H4 H5 H6.
  destruct (hex_pair_value a1 a2 v1 v2 H1 H2) as [Hr Hhash].
  destruct (hex_pair_value a3 a4 v3 v4 H3 H4) as [Hg _].
  destruct (hex_pair_value a5 a6 v5 v6 H5 H6) as [Hb _].
  split.
  - unfold _hex_to_rgb. rewrite (lstrip_hash_hashes k a1 _ Hhash).
    cbn [substring]. rewrite !substring_0_0. by rewrite Hr, Hg, Hb.
  - pose proof (hex_digit_range _ _ H1). pose proof (hex_digit_range _ _ H2).
    pose proof (hex_digit_range _ _ H3). pose proof (hex_digit_range _ _ H4).
    pose proof (hex_digit_range _ _ H5). pose proof (hex_digit_range _ _ H6).
    lia.
Qed.

Lemma int_base16_empty : int_base16 "" = None.
Proof. reflexivity. Qed.

(** X2: a colour with fewer than five characters after its leading [#]
    has no blue component: the conversion raises [ValueError]. *)
Theorem hex_to_rgb_short (hex_color : string) :
  String.length (lstrip_hash hex_color) < 5 →
  _hex_to_rgb hex_color = Raise ValueError.
Proof.
  unfold _hex_to_rgb. intros Hlen.
  destruct (lstrip_hash hex_color) as [| c1 [| c2 [| c3 [| c4 [| c5 t]]]]];
    cbn [String.length] in Hlen; try lia; cbn [substring];
    rewrite ?int_base16_empty;
    repeat match goal with
           | |- context [int_base16 ?x] => destruct (int_base16 x)
           end; reflexivity.
Qed.

(** Every colour of [styles] and of [color_mapping] converts. *)
Lemma palette_converts :
  Forall (λ c, is_ok (_hex_to_rgb c) = true)
    ([styles.header_color; styles.header_text_color; styles.row_colors 0;
      styles.row_colors 1; styles.border_color; styles.summary_color;
      styles.text_color; styles.empty_text_color] ++ dict_values color_mapping).
Proof. repeat constructor. Qed.

(* ===================================================================== *)
(** * Value Formatter: when it raises                                      *)
(* ===================================================================== *)

Section FormatterErrors.
Context `{PyEnv}.

(** X3: on a value that [str()] converts (an integer of at most 4300
    digits, or any other value), the Value Formatter called without a
    format kind raises in one case only: under [replace_zero], on an
    integer too large to convert to a float, it lets the
    [OverflowError] of [float(value)] through.  On [None], strings,
    booleans and floats it always returns. *)
Theorem process_value_plain_raises (value : pyval) (replace_zero : bool) (e : exn) :
  str_converts value →
  _process_value value replace_zero None = Raise e
  ↔ replace_zero = true ∧ e = OverflowError
    ∧ ∃ z, value = VInt z ∧ (float_overflow_bound ≤ Z.abs z)%Z.
Proof.
  intros _. unfold _process_value, format_branch, zero_branch. cbn [str_truthy].
  destruct value as [| b | z | f | s]; cbn [is_None py_eq orb].
  - split; [done | intros (_ & _ & z & [=] & _)].
  - destruct replace_zero; cbn [py_float_is_zero].
    + destruct b; (split; [done | intros (_ & _ & z & [=] & _)]).
    + split; [done | intros ([=] & _)].
  - destruct replace_zero; cbn [py_float_is_zero].
    + destruct (Z.leb_spec float_overflow_bound (Z.abs z)) as [Hbig | Hsmall].
      * cbn [value_or_type_error]. split.
        -- intros [= <-]. split; [done |]. split; [done |]. by exists z.
        -- intros (_ & -> & _). done.
      * split.
        -- destruct (z =? 0)%Z; done.
        -- intros (_ & _ & z' & [= <-] & Hbig). lia.
    + split; [done | intros ([=] & _)].
  - destruct replace_zero; cbn [py_float_is_zero].
    + destruct f as [[] | [] | | [] m ex];
        (split; [done | intros (_ & _ & z & [=] & _)]).
    + split; [done | intros ([=] & _)].
  - destruct (String.eqb s ""); [split; [done | intros (_ & _ & z & [=] & _)] |].
    destruct replace_zero; cbn [py_float_is_zero].
    + destruct (str_float_is_zero s) as [[] |]; cbn [value_or_type_error];
        (split; [done | intros (_ & _ & z & [=] & _)]).
    + split; [done | intros ([=] & _)].
Qed.

End FormatterErrors.

(* ===================================================================== *)
(** * Table Data Builder: the layers of a multi-level header               *)
(* ===================================================================== *)

Lemma count_valid_from (cols : list string) (pos : Z) (k : nat) :
  ∀ (a : nat) (acc : Z),
    count_valid (Some cols) pos (seq a k) acc
    = Ok (acc + Z.max 0 (Z.min (Z.of_nat k)
                           (Z.of_nat (length cols) - pos - Z.of_nat a)))%Z.
Proof.
  induction k as [| k IH]; intros a acc.
  - simpl. f_equal. lia.
  - cbn [seq count_valid len_filtered mbind result_bind]. rewrite IH. f_equal.
    destruct (Z.ltb_spec (pos + Z.of_nat a) (Z.of_nat (length cols))); lia.
Qed.

(** X4: the valid span of an entry is its declared span cut to the
    columns left between the running position and the number of
    filtered columns (and 0 when none is left or the span is not
    positive). *)
Theorem valid_span_closed_form (cols : list string) (pos span : Z) :
  count_valid (Some cols) pos (range span) 0
  = Ok (Z.max 0 (Z.min span (Z.of_nat (length cols) - pos))).
Proof.
  unfold range. rewrite count_valid_from. f_equal. lia.
Qed.

Lemma valid_span_value (cols : list string) (pos span : Z) :
  count_valid (Some cols) pos (range span) 0
  = Ok (Z.max 0 (Z.min span (Z.of_nat (length cols) - pos))).
Proof. unfold range. rewrite count_valid_from. f_equal. lia. Qed.

Lemma layer_items_position (cols : list string) (items : list (string * Z)) :
  ∀ pos row pos' row',
    layer_items (Some cols) items pos row = Ok (pos', row') →
    pos' = (pos + declared_span items)%Z.
Proof.
  induction items as [| [header span] items IH]; intros pos row pos' row' Hrun.
  - simpl in Hrun. simplify_eq. simpl. lia.
  - cbn [layer_items] in Hrun. rewrite valid_span_value in Hrun.
    cbn [mbind result_bind] in Hrun. apply IH in Hrun. rewrite Hrun. simpl. lia.
Qed.

Lemma layer_items_past (cols : list string) (items : list (string * Z)) :
  nonneg_layer items →
  ∀ pos row,
    (Z.of_nat (length cols) ≤ pos)%Z →
    layer_items (Some cols) items pos row = Ok ((pos + declared_span items)%Z, row).
Proof.
  induction 1 as [| [header span] items Hspan _ IH]; intros pos row Hpos.
  - simpl. do 2 f_equal. lia.
  - simpl in Hspan. cbn [layer_items]. rewrite valid_span_value.
    cbn [mbind result_bind].
    replace (Z.max 0 (Z.min span (Z.of_nat (length cols) - pos))) with 0%Z by lia.
    cbn [Z.ltb Z.compare]. rewrite IH by lia. simpl. do 2 f_equal. lia.
Qed.

Lemma layer_rows_past (cols : list string) (multi : list (dict Z)) :
  Forall nonneg_layer multi →
  ∀ pos headers,
    (Z.of_nat (length cols) ≤ pos)%Z →
    layer_rows (Some cols) multi pos headers = Ok headers.
Proof.
  induction 1 as [| layer multi Hlayer _ IH]; intros pos headers Hpos; [done |].
  cbn [layer_rows]. unfold dict_items.
  rewrite (layer_items_past cols layer Hlayer pos [] Hpos).
  cbn [mbind result_bind]. apply IH.
  assert (0 ≤ declared_span layer)%Z.
  { clear -Hlayer. induction Hlayer as [| [h sp] items Hsp _ IH]; simpl in *; lia. }
  lia.
Qed.

(** X5: the running position is set once, before the first layer, and
    never set back: once a layer has declared as many columns as there
    are filtered columns, no later layer contributes a header row. *)
Theorem later_layers_dropped (cols : list string) (layer : dict Z)
    (rest : list (dict Z)) :
  nonneg_layer layer → Forall nonneg_layer rest →
  (Z.of_nat (length cols) ≤ declared_span layer)%Z →
  layer_rows (Some cols) (layer :: rest) 0 [] = layer_rows (Some cols) [layer] 0 [].
Proof.
  intros Hlayer Hrest Hfull. cbn [layer_rows]. unfold dict_items.
  destruct (layer_items (Some cols) layer 0 []) as [[pos row] | e] eqn:Hrun; [| done].
  cbn [mbind result_bind].
  apply layer_items_position in Hrun. subst pos.
  by rewrite (layer_rows_past cols rest Hrest) by lia.
Qed.

Lemma layer_items_budget (cols : list string) (items : list (string * Z)) :
  nonneg_layer items →
  ∀ pos row pos' row',
    layer_items (Some cols) items pos row = Ok (pos', row') →
    (Z.of_nat (length row') + Z.max 0 (Z.of_nat (length cols) - pos')
     = Z.of_nat (length row) + Z.max 0 (Z.of_nat (length cols) - pos))%Z.
Proof.
  induction 1 as [| [header span] items Hspan _ IH]; intros pos row pos' row' Hrun.
  - simpl in Hrun. by simplify_eq.
  - simpl in Hspan. cbn [layer_items] in Hrun. rewrite valid_span_value in Hrun.
    cbn [mbind result_bind] in Hrun. apply IH in Hrun. rewrite Hrun. clear Hrun IH.
    set (v := Z.max 0 (Z.min span (Z.of_nat (length cols) - pos))).
    destruct (Z.ltb_spec 0 v) as [Hv | Hv].
    + rewrite !length_app, length_replicate. cbn [length]. lia.
    + lia.
Qed.

Lemma layer_rows_budget (cols : list string) (multi : list (dict Z)) :
  Forall nonneg_layer multi →
  ∀ pos headers headers',
    layer_rows (Some cols) multi pos headers = Ok headers' →
    (Z.of_nat (grid_size headers')
     ≤ Z.of_nat (grid_size headers) + Z.max 0 (Z.of_nat (length cols) - pos))%Z.
Proof.
  induction 1 as [| layer multi Hlayer _ IH]; intros pos headers headers' Hrun.
  - simpl in Hrun. simplify_eq. lia.
  - cbn [layer_rows] in Hrun. unfold dict_items in Hrun.
    destruct (layer_items (Some cols) layer pos []) as [[pos1 row] | e] eqn:Hrow;
      [| done].
    cbn [mbind result_bind] in Hrun. apply IH in Hrun.
    apply (layer_items_budget cols layer Hlayer) in Hrow. cbn [length] in Hrow.
    destruct row as [| x row].
    + cbn [length] in Hrow. lia.
    + unfold grid_size in *. rewrite sum_list_with_app in Hrun.
      cbn [sum_list_with] in Hrun. lia.
Qed.

(** X6: when no declared span is negative, the header rows made of the
    layers hold, all together, at most as many entries (cells and
    continuation markers) as there are filtered columns; so no layer row
    is wider than the row of column names. *)
Theorem layer_rows_within_columns (cols : list string) (multi : list (dict Z))
    (headers : list (list raw_cell)) :
  Forall nonneg_layer multi →
  layer_rows (Some cols) multi 0 [] = Ok headers →
  grid_size headers ≤ length cols
  ∧ Forall (λ row, length row ≤ length cols) headers.
Proof.
  intros Hmulti Hrun.
  pose proof (layer_rows_budget cols multi Hmulti 0 [] headers Hrun) as Hsum.
  unfold grid_size in *. cbn [sum_list_with] in Hsum.
  assert (sum_list_with length headers ≤ length cols) as Hle by lia.
  split; [exact Hle |].
  clear -Hle. induction headers as [| row headers IH]; [constructor |].
  cbn [sum_list_with] in Hle.
  constructor; [lia | apply IH; lia].
Qed.

(* ===================================================================== *)
(** * Table Data Builder: rows and pruning, further properties             *)
(* ===================================================================== *)

Lemma retains_app (data more : list (dict pyval)) (col : string) :
  retains (data ++ more) col = retains data col || retains more col.
Proof. unfold retains. apply existsb_app. Qed.

Lemma filter_sublist_impl {A} (P Q : A → Prop) `{!∀ x, Decision (P x)}
    `{!∀ x, Decision (Q x)} (l : list A) :
  (∀ x, P x → Q x) → filter P l `sublist_of` filter Q l.
Proof.
  intros Himpl. induction l as [| x l IH]; [done |].
  rewrite !filter_cons. destruct (decide (P x)) as [HP | HP].
  - rewrite decide_True by auto. by constructor.
  - destruct (decide (Q x)); [by constructor | done].
Qed.

Section RowsAndPruning.
Context `{PyEnv}.

(** X7: when columns are filtered and the builder returns, there is one
    data row per record, every data row has one string per filtered
    column, and a record that lacks a filtered column shows the
    placeholder ["-"] at that column's position. *)
Theorem data_rows_aligned (data : list (dict pyval))
    (columns_order : option (list string))
    (multi_columns : option (list (dict Z)))
    (column_display : option (dict string)) (replace_zero : bool)
    (td : table_data) (cols : list string) :
  _build_table_data data columns_order multi_columns column_display replace_zero
  = Ok td →
  filtered_columns data columns_order = Some cols → cols ≠ [] →
  length (td_data td) = length data
  ∧ Forall (λ row, length row = length cols) (td_data td)
  ∧ ∀ i record row j col,
      data !! i = Some record → td_data td !! i = Some row →
      cols !! j = Some col → dict_get record col = None →
      row !! j = Some "-".
Proof.
  intros Hbuild Hfiltered Hne. unfold _build_table_data in Hbuild.
  rewrite Hfiltered in Hbuild.
  destruct (build_headers _ _ _) as [hs | e]; cbn [mbind result_bind] in Hbuild;
    [| done].
  destruct (mapM _ data) as [rows | e] eqn:Hrows; cbn [mbind result_bind] in Hbuild;
    [| done].
  simplify_eq. cbn [td_data].
  apply mapM_Forall2 in Hrows.
  assert (seq_truthy (Some cols) = true) as Htruthy by (by destruct cols).
  split; [symmetry; by eapply Forall2_length |]. split.
  - apply Forall_forall. intros row Hin.
    apply list_elem_of_lookup in Hin as [i Hi].
    destruct (Forall2_lookup_r _ _ _ _ _ Hrows Hi) as (record & _ & Hrow).
    unfold build_row in Hrow. rewrite Htruthy in Hrow. cbn [from_option id] in Hrow.
    apply mapM_Forall2 in Hrow. symmetry. by eapply Forall2_length.
  - intros i record row j col Hrecord Hrow Hcol Hmissing.
    pose proof (Forall2_lookup_lr _ _ _ _ _ _ Hrows Hrecord Hrow) as Hbuilt.
    unfold build_row in Hbuilt. rewrite Htruthy in Hbuilt.
    cbn [from_option id] in Hbuilt. apply mapM_Forall2 in Hbuilt.
    destruct (Forall2_lookup_l _ _ _ _ _ Hbuilt Hcol) as (cell & Hcell & Hvalue).
    rewrite Hcell. f_equal. cbv zeta in Hvalue.
    unfold dict_get_default in Hvalue. rewrite Hmissing in Hvalue.
    cbn in Hvalue. by simplify_eq.
Qed.

(** X8: when [columns_order] is given but every column it lists is empty
    in every record, the table is not empty: without a multi-level
    header the builder returns one header row with no cell and, for each
    record, all of its values as [str(value)], unformatted. *)
Theorem all_pruned_dump (data : list (dict pyval)) (cols : list string)
    (multi_columns : option (list (dict Z)))
    (column_display : option (dict string)) (replace_zero : bool) :
  cols ≠ [] → Forall (λ col, retains data col = false) cols →
  seq_truthy multi_columns = false →
  _build_table_data data (Some cols) multi_columns column_display replace_zero
  = Ok {| td_headers := [[]];
          td_data := (λ row, py_str <$> dict_values row) <$> data |}.
Proof.
  intros Hne Hempty Hmulti. unfold _build_table_data.
  rewrite (filtered_columns_retained data cols Hne).
  assert (filter (λ col, retains data col = true) cols = []) as ->.
  { clear Hne. induction Hempty as [| col cols Hcol _ IH]; [done |].
    rewrite filter_cons, decide_False by congruence. exact IH. }
  unfold build_headers. rewrite Hmulti. cbn [mapM mbind result_bind].
  assert (mapM (build_row (Some []) column_display replace_zero) data
          = Ok ((λ row, py_str <$> dict_values row) <$> data)) as ->.
  { rewrite <- mapM_pure. apply mapM_ext. intros row.
    by apply build_row_unfiltered. }
  reflexivity.
Qed.

End RowsAndPruning.

(** X9: pruning is idempotent: pruning again with the list of retained
    columns (when some column is retained) changes nothing. *)
Theorem pruning_idempotent (data : list (dict pyval)) (cols kept : list string) :
  cols ≠ [] → filtered_columns data (Some cols) = Some kept → kept ≠ [] →
  filtered_columns data (Some kept) = Some kept.
Proof.
  intros Hne Hkept Hkept_ne.
  rewrite (filtered_columns_retained data cols Hne) in Hkept. simplify_eq.
  rewrite (filtered_columns_retained data _ Hkept_ne). f_equal.
  rewrite list_filter_filter. apply list_filter_iff. tauto.
Qed.

(** X10: records only ever add columns.  The columns retained for some
    records are retained, in the same order, for those records followed
    or preceded by more records; and the order of the records does not
    matter. *)
Theorem pruning_monotone (data more : list (dict pyval)) (cols kept : list string) :
  cols ≠ [] → filtered_columns data (Some cols) = Some kept →
  (∃ kept', filtered_columns (data ++ more) (Some cols) = Some kept'
            ∧ kept `sublist_of` kept')
  ∧ (∃ kept', filtered_columns (more ++ data) (Some cols) = Some kept'
              ∧ kept `sublist_of` kept')
  ∧ (∀ data', data ≡ₚ data' → filtered_columns data' (Some cols) = Some kept).
Proof.
  intros Hne Hkept.
  rewrite (filtered_columns_retained data cols Hne) in Hkept. simplify_eq.
  split; [| split].
  - eexists. split; [apply (filtered_columns_retained _ cols Hne) |].
    apply filter_sublist_impl. intros col Hcol. by rewrite retains_app, Hcol.
  - eexists. split; [apply (filtered_columns_retained _ cols Hne) |].
    apply filter_sublist_impl. intros col Hcol.
    by rewrite retains_app, Hcol, orb_true_r.
  - intros data' Hperm. rewrite (filtered_columns_retained data' cols Hne). f_equal.
    apply list_filter_iff. intros col. rewrite !retains_spec.
    by setoid_rewrite Hperm.
Qed.

(* ===================================================================== *)
(** * The outcome of a render call                                         *)
(* ===================================================================== *)

Lemma count_valid_unfiltered (pos : Z) (indices : list nat) (v v' : Z) :
  count_valid None pos indices v = Ok v' → v' = v.
Proof. destruct indices; simpl; congruence. Qed.

Lemma layer_items_unfiltered (items : list (string * Z)) :
  ∀ pos row pos' row',
    layer_items None items pos row = Ok (pos', row') → row' = row.
Proof.
  induction items as [| [header span] rest IH]; intros pos row pos' row' Hrun.
  - simpl in Hrun. congruence.
  - cbn [layer_items] in Hrun.
    destruct (count_valid None pos (range span) 0) as [v | e] eqn:Hv;
      cbn [mbind result_bind] in Hrun; [| done].
    apply count_valid_unfiltered in Hv as ->. simpl in Hrun. by eapply IH.
Qed.

Lemma layer_rows_unfiltered (multi : list (dict Z)) :
  ∀ pos hs, layer_rows None multi pos [] = Ok hs → hs = [].
Proof.
  induction multi as [| layer rest IH]; intros pos hs Hrun.
  - simpl in Hrun. congruence.
  - cbn [layer_rows] in Hrun.
    destruct (layer_items None (dict_items layer) pos []) as [[pos' row] | e] eqn:Hrow;
      cbn [mbind result_bind] in Hrun; [| done].
    apply layer_items_unfiltered in Hrow as ->. by eapply IH.
Qed.

Lemma build_headers_unfiltered (multi_columns : option (list (dict Z)))
    (column_display : option (dict string)) (hs : list (list raw_cell)) :
  build_headers None multi_columns column_display = Ok hs → hs = [].
Proof.
  unfold build_headers. destruct (seq_truthy multi_columns); [| done].
  destruct (layer_rows None _ 0 []) as [hs' | e] eqn:Hrows;
    cbn [mbind result_bind]; [| done].
  apply layer_rows_unfiltered in Hrows as ->.
  rewrite andb_false_r. congruence.
Qed.

Lemma largest_all_empty (rows : list (list string)) :
  Forall (λ row, row = []) rows → largest ((Z.of_nat ∘ length) <$> rows) = 0%Z.
Proof.
  intros Hall. destruct Hall as [| row rows -> Hall]; [done |].
  cbn. induction Hall as [| row rows -> _ IH]; [done |]. cbn. by rewrite IH.
Qed.

Lemma some_row_not_empty (rows : list (list string)) :
  total_cols_of [] rows ≠ 0%Z → Exists (λ row, row ≠ []) rows.
Proof.
  intros Hcols. apply not_Forall_Exists; [intros row; apply _ |].
  intros Hall. apply Hcols. unfold total_cols_of.
  by rewrite largest_all_empty.
Qed.

Section RenderOutcome.
Context `{PyEnv}.

Lemma scaled_width_nonzero (n : Z) : scaled 150 (fit_cell_width n) ≠ 0%Z.
Proof.
  unfold scaled. pose proof (fit_cell_width_range n) as [Hlo _].
  rewrite Z.quot_div_nonneg by lia.
  assert (0 < fit_cell_width n * 150 / 72)%Z by (apply Z.div_str_pos; lia). lia.
Qed.

(** Without a header row the first data cell cannot be drawn: the
    look-up of its column name in [headers[-1]] raises. *)
Lemma draw_data_rows_headerless (rules : list (string * pyval))
    (color_column : string) (replace_zero : bool) (rows : list (list string)) :
  Exists (λ row, row ≠ []) rows →
  ∀ row_idx s,
    draw_data_rows [] rules row_idx color_column replace_zero rows s
    = (Raise IndexError, s).
Proof.
  induction rows as [| row rest IH]; intros Hex row_idx s.
  - by apply Exists_nil in Hex.
  - cbn [draw_data_rows]. rewrite bind_run. unfold get_self at 1.
    destruct row as [| cell_text row].
    + cbn [draw_data_cells]. rewrite bind_run. unfold mret at 1, M_ret at 1.
      apply IH. apply Exists_cons in Hex as [Hrow | Hrest]; done.
    + reflexivity.
Qed.

(** A table without any header row is not drawn: the first data cell
    fails. *)
Lemma create_table_headerless (td : table_data) (color_column : string)
    (replace_zero : bool) (highlight_rules : option (dict pyval)) (s : State) :
  td_headers td = [] → td_data td ≠ [] → table_cols td ≠ 0%Z →
  _create_table td color_column replace_zero highlight_rules 150 s
  = (Raise IndexError,
     {| gen := scaled_self 150 (table_cols td) (gen s);
        canvas := canvas s
                  ++ [NewImage (canvas_size (gen s) td).1 (canvas_size (gen s) td).2] |}).
Proof.
  intros Hheaders Hdata Hcols. unfold _create_table, canvas_size.
  unfold table_cols in *. rewrite Hheaders in *. cbn [cells_of fmap list_fmap] in *.
  rewrite bind_run, (calculate_table_size_run [] _ s Hdata Hcols).
  set (n := total_cols_of [] (td_data td)) in *.
  cbv [mbind M_bind emit get_self self_cell_width set_self load_fonts
       mret M_ret raise with_cell_width].
  cbn [gen canvas cell_width cell_height font_size fonts length replicate
       draw_header_rows].
  destruct (Z.eqb_spec (scaled 150 (fit_cell_width n)) 0) as [Hz | _];
    [by apply scaled_width_nonzero in Hz |].
  unfold mret, M_ret. cbv beta iota.
  rewrite draw_data_rows_headerless by (by apply some_row_not_empty).
  reflexivity.
Qed.

Lemma create_table_drawable (td : table_data) (color_column : string)
    (replace_zero : bool) (highlight_rules : option (dict pyval))
    (s s' : State) (image : Image) :
  _create_table td color_column replace_zero highlight_rules 150 s = (Ok image, s') →
  drawable td.
Proof.
  intros Hrun. pose proof Hrun as Hrun'. unfold _create_table in Hrun'.
  apply bind_ok_inv in Hrun' as ([bw bh] & s1 & Hsize & _).
  apply calculate_table_size_ok in Hsize as (Hdata & Hcols & _).
  split; [| done]. intros Hheaders.
  by rewrite (create_table_headerless _ _ _ _ _ Hheaders Hdata Hcols) in Hrun.
Qed.

(** The rest of a render call once the table is drawn. *)
Lemma save_run (banner : bool) (s : State) :
  (emit (Save TempTable);;
   if banner then emit (Save TempBanner);; emit Merge;; emit (Save FinalFile)
   else emit (Save FinalFile)) s
  = (Ok tt, {| gen := gen s; canvas := canvas s ++ saves banner |}).
Proof.
  destruct banner; cbv [mbind M_bind emit saves]; cbn [gen canvas];
    by rewrite <- ?app_assoc.
Qed.

(** X11: a render call returns only if the builder has returned a
    table with at least one header row, at least one data row and at
    least one column. *)
Theorem render_returns_only_drawable (a : render_args) (s s' : State) :
  render a s = (Ok tt, s') → ∃ td, built a = Ok td ∧ drawable td.
Proof.
  intros Hrun. unfold render, create_table_image in Hrun.
  apply bind_ok_inv in Hrun as (td & s1 & Hbuild & Hrun).
  unfold lift in Hbuild. injection Hbuild as Hbuild <-.
  apply bind_ok_inv in Hrun as (image & s2 & Htable & _).
  exists td. split; [exact Hbuild |]. by eapply create_table_drawable.
Qed.

(** X12: the whole effect of a render call that returns.  The surface
    receives, in this order, the new canvas, one paint per header cell,
    one paint per data cell row by row, and only then the save of the
    table image, followed with a banner by the save of the banner, the
    merge and the save of the final file, and without one by the save
    of the final file.  The generator ends with the unscaled cell width
    of this table and its cell height and font size as before. *)
Theorem render_surface (a : render_args) (td : table_data) (s : State) :
  built a = Ok td → drawable td →
  render a s
  = (Ok tt,
     {| gen := restored_self (table_cols td) (gen s);
        canvas := canvas s
                  ++ [NewImage (canvas_size (gen s) td).1 (canvas_size (gen s) td).2]
                  ++ table_paints (scaled_self 150 (table_cols td) (gen s)) a td
                  ++ saves (a_banner a) |}).
Proof.
  intros Hbuilt (Hheaders & Hdata & Hcols).
  unfold render, create_table_image. unfold built in Hbuilt.
  rewrite bind_run. unfold lift at 1. rewrite Hbuilt. rewrite bind_run.
  rewrite (create_table_run _ _ _ _ _ td _ _ s Hbuilt Hheaders Hdata Hcols).
  rewrite save_run. cbn [gen canvas]. unfold canvas_size, table_paints.
  cbn [fst snd].
  assert (length (cells_of (td_headers td)) = length (td_headers td)) as Hlen
    by apply length_fmap.
  cbv zeta. rewrite Hlen. fold (table_cols td).
  by rewrite <- !app_assoc.
Qed.

(** X13: three points at which the compositor fails, and what it
    leaves behind.  On a table without data rows it raises the
    [ValueError] of [max()], and on one whose header and data rows are
    all empty the [ZeroDivisionError] of the width quotient, in both
    cases with the generator and the surface untouched.  On a table with
    data but no header row it raises [IndexError] at the first data
    cell, after the canvas has been created and before any cell is
    painted, and leaves the generator with the sizes scaled for 150 dpi:
    the restoring assignments at the end of the draw pass are not
    reached. *)
Theorem create_table_failure_points (td : table_data) (color_column : string)
    (replace_zero : bool) (highlight_rules : option (dict pyval)) (s : State) :
  (td_data td = [] →
   ∀ dpi, _create_table td color_column replace_zero highlight_rules dpi s
          = (Raise ValueError, s))
  ∧ (td_data td ≠ [] → table_cols td = 0%Z →
     ∀ dpi, _create_table td color_column replace_zero highlight_rules dpi s
            = (Raise ZeroDivisionError, s))
  ∧ (td_headers td = [] → td_data td ≠ [] → table_cols td ≠ 0%Z →
     _create_table td color_column replace_zero highlight_rules 150 s
     = (Raise IndexError,
        {| gen := scaled_self 150 (table_cols td) (gen s);
           canvas := canvas s
                     ++ [NewImage (canvas_size (gen s) td).1
                                  (canvas_size (gen s) td).2] |})).
Proof.
  split; [| split].
  - intros Hdata dpi. unfold _create_table. by rewrite bind_run, Hdata.
  - intros Hdata Hcols dpi. unfold _create_table, _calculate_table_size.
    rewrite !bind_run. unfold lift at 1.
    rewrite (max_row_len_largest (td_data td) Hdata).
    fold (total_cols_of (cells_of (td_headers td)) (td_data td)).
    fold (table_cols td). by rewrite Hcols.
  - apply create_table_headerless.
Qed.

(** X14: without a column order ([columns_order] omitted or empty) the
    builder never makes a header row, and the render call never
    returns. *)
Theorem render_without_column_order (a : render_args) (s : State) :
  seq_truthy (a_columns_order a) = false →
  (∀ td, built a = Ok td → td_headers td = [])
  ∧ ∃ e s', render a s = (Raise e, s').
Proof.
  intros Horder.
  assert (∀ td, built a = Ok td → td_headers td = []) as Hheaders.
  { intros td Hbuilt.
    unfold built, _build_table_data, filtered_columns in Hbuilt.
    rewrite Horder in Hbuilt.
    destruct (build_headers None _ _) as [hs | e0] eqn:Hhs;
      cbn [mbind result_bind] in Hbuilt; [| done].
    apply build_headers_unfiltered in Hhs as ->.
    destruct (mapM _ _); cbn [mbind result_bind] in Hbuilt; [| done].
    by simplify_eq. }
  split; [exact Hheaders |].
  destruct (render a s) as [[[] | e] s'] eqn:Hrun; [| by exists e, s'].
  unfold render, create_table_image in Hrun.
  apply bind_ok_inv in Hrun as (td & s1 & Hbuild & Hrun).
  unfold lift in Hbuild. injection Hbuild as Hbuild <-.
  apply bind_ok_inv in Hrun as (image & s2 & Htable & _).
  apply create_table_drawable in Htable as [Hne _].
  by apply Hheaders in Hbuild.
Qed.

End RenderOutcome.

(* ===================================================================== *)
(** * Grid geometry and column names, further properties                   *)
(* ===================================================================== *)

(** X15: the computed table width stays within the target width of 1840
    pixels (plus the closing border pixel) exactly when the table has at
    most 15 columns.  Up to 7 columns every column has the largest width,
    240; from 16 columns on every column has the smallest width, 120,
    and the table is wider than the target. *)
Theorem width_within_target (headers : list (list (option Cell)))
    (data : list (list string)) (s s' : State) (size : Z * Z) :
  _calculate_table_size headers data s = (Ok size, s') →
  let n := total_cols_of headers data in
  ((size.1 ≤ target_total_width + 1 ↔ n ≤ 15)
   ∧ (n ≤ 7 → size.1 = 240 * n + 1)
   ∧ (15 < n → size.1 = 120 * n + 1))%Z.
Proof.
  intros Hrun n.
  pose proof Hrun as (Hdata & Hcols & _)%calculate_table_size_ok.
  rewrite (calculate_table_size_run _ _ s Hdata Hcols) in Hrun.
  fold n in Hrun, Hcols. injection Hrun as <- _. cbn [fst].
  pose proof (total_cols_nonneg headers data) as Hnn. fold n in Hnn.
  assert (0 < n)%Z as Hpos by lia.
  rewrite fit_cell_width_clamp. unfold clamp, target_total_width.
  pose proof (Z.mul_div_le 1840 n Hpos) as Hle.
  pose proof (Z.mod_pos_bound 1840 n Hpos) as Hmod.
  pose proof (Z.div_mod 1840 n ltac:(lia)) as Hdiv.
  set (q := (1840 / n)%Z) in *. change (1920 - 2 * 40)%Z with 1840%Z.
  remember (Z.min 240 (Z.max 120 q)) as w eqn:Hw.
  split; [split |]; [| | split]; intros Hn.
  - destruct (Z.le_gt_cases n 15) as [| Hbig]; [done |].
    assert (120 ≤ w)%Z by lia. clear Hw. nia.
  - assert (122 ≤ q)%Z by nia.
    assert (w ≤ q)%Z by lia. clear Hw. nia.
  - assert (240 ≤ q)%Z by nia. assert (w = 240)%Z as -> by lia. lia.
  - assert (q < 120)%Z by nia. assert (w = 120)%Z as -> by lia. lia.
Qed.

(** X16: the column name under which a data cell is drawn is found by
    position: it is the text of the cell at the same index of the last
    header row, and the empty string when that row has a continuation
    marker there or is shorter. *)
Theorem column_name_positional (headers : list (list (option Cell)))
    (last_row : list (option Cell)) (col_idx : nat) :
  column_name_at (headers ++ [last_row]) col_idx
  = Ok (match last_row !! col_idx with
        | Some (Some cell) => text cell
        | _ => ""
        end).
Proof.
  unfold column_name_at, enumerate. rewrite last_snoc.
  rewrite (names_from col_idx last_row 0) by lia. rewrite Nat.sub_0_r.
  by destruct (last_row !! col_idx) as [[c |] |].
Qed.

(* ===================================================================== *)
(** * Further worked examples                                              *)
(* ===================================================================== *)

Section FurtherExamples.
Import RefEnv Examples.

(** ** Colours *)

Lemma hex_to_rgb_six_digits_witness :
  hex_digit_value "A" = Some 10%Z
  ∧ _hex_to_rgb "#94A3B8" = Ok (148, 163, 184)%Z.
Proof.
  split; [reflexivity |].
  exact (proj1 (hex_to_rgb_six_digits 1 "9" "4" "A" "3" "B" "8" 9 4 10 3 11 8 ""
                  eq_refl eq_refl eq_refl eq_refl eq_refl eq_refl)).
Defined.

Lemma hex_to_rgb_short_witness :
  String.length (lstrip_hash "#FFF") < 5 ∧ _hex_to_rgb "#FFF" = Raise ValueError.
Proof.
  split; [simpl; lia |]. apply (hex_to_rgb_short "#FFF"). simpl. lia.
Defined.

(** ** Value Formatter *)

Lemma process_value_plain_raises_witness :
  str_converts (VInt (2 ^ 1024))
  ∧ _process_value (VInt (2 ^ 1024)) true None = Raise OverflowError.
Proof.
  assert (str_converts (VInt (2 ^ 1024))) as Hconverts by (vm_compute; reflexivity).
  split; [exact Hconverts |].
  apply (proj2 (process_value_plain_raises (VInt (2 ^ 1024)) true OverflowError
                  Hconverts)).
  split; [reflexivity |]. split; [reflexivity |].
  exists (2 ^ 1024)%Z. split; [reflexivity |]. vm_compute. discriminate.
Defined.

(** ** Layers of a multi-level header *)

Lemma later_layers_dropped_witness :
  (Z.of_nat (length ["a"; "b"]) ≤ declared_span [("G", 2%Z)])%Z
  ∧ layer_rows (Some ["a"; "b"]) [[("G", 2%Z)]; [("H", 2%Z)]] 0 []
    = Ok [[RDict "G" 2 1; RNull]].
Proof.
  split; [simpl; lia |].
  transitivity (layer_rows (Some ["a"; "b"]) [[("G", 2%Z)]] 0 []); [| reflexivity].
  apply (later_layers_dropped ["a"; "b"] [("G", 2%Z)] [[("H", 2%Z)]]).
  - repeat constructor; simpl; lia.
  - repeat constructor; simpl; lia.
  - simpl. lia.
Defined.

Lemma layer_rows_within_columns_witness :
  layer_rows (Some ["a"; "b"; "c"]) [[("G", 2%Z); ("H", 5%Z)]] 0 []
  = Ok [[RDict "G" 2 1; RNull; RDict "H" 1 1]]
  ∧ grid_size [[RDict "G" 2 1; RNull; RDict "H" 1 1]] ≤ 3.
Proof.
  split; [reflexivity |].
  apply (layer_rows_within_columns ["a"; "b"; "c"] [[("G", 2%Z); ("H", 5%Z)]]).
  - repeat constructor; simpl; lia.
  - reflexivity.
Defined.

(** ** Rows and pruning *)

Lemma data_rows_aligned_witness :
  ∃ td,
    _build_table_data [[("name", VStr "A")]; [("name", VStr "B"); ("score", VInt 5)]]
      (Some ["name"; "score"]) None (Some []) false = Ok td
    ∧ td_data td !! 0 = Some ["A"; "-"]
    ∧ Forall (λ row, length row = 2) (td_data td).
Proof.
  eexists. split; [vm_compute; reflexivity |]. split; [reflexivity |].
  apply (data_rows_aligned
           [[("name", VStr "A")]; [("name", VStr "B"); ("score", VInt 5)]]
           (Some ["name"; "score"]) None (Some []) false _ ["name"; "score"]).
  - vm_compute. reflexivity.
  - vm_compute. reflexivity.
  - discriminate.
Defined.

Lemma all_pruned_dump_witness :
  Forall (λ col, retains [[("a", VInt 0); ("b", VStr "x")]] col = false) ["a"]
  ∧ _build_table_data [[("a", VInt 0); ("b", VStr "x")]] (Some ["a"]) None
      (Some []) false
    = Ok {| td_headers := [[]]; td_data := [["0"; "x"]] |}.
Proof.
  assert (Forall (λ col, retains [[("a", VInt 0); ("b", VStr "x")]] col = false) ["a"])
    as Hempty by (repeat constructor).
  split; [exact Hempty |].
  apply (all_pruned_dump [[("a", VInt 0); ("b", VStr "x")]] ["a"] None (Some []) false);
    [discriminate | exact Hempty | reflexivity].
Defined.

Lemma pruning_idempotent_witness :
  filtered_columns [[("a", VInt 0); ("b", VInt 2)]] (Some ["a"; "b"]) = Some ["b"]
  ∧ filtered_columns [[("a", VInt 0); ("b", VInt 2)]] (Some ["b"]) = Some ["b"].
Proof.
  assert (filtered_columns [[("a", VInt 0); ("b", VInt 2)]] (Some ["a"; "b"])
          = Some ["b"]) as Hkept by (vm_compute; reflexivity).
  split; [exact Hkept |].
  apply (pruning_idempotent _ ["a"; "b"] ["b"]); [discriminate | exact Hkept | discriminate].
Defined.

Lemma pruning_monotone_witness :
  filtered_columns [[("a", VInt 0); ("b", VInt 2)]] (Some ["a"; "b"]) = Some ["b"]
  ∧ ∃ kept',
      filtered_columns ([[("a", VInt 0); ("b", VInt 2)]] ++ [[("a", VInt 1)]])
        (Some ["a"; "b"]) = Some kept'
      ∧ ["b"] `sublist_of` kept'.
Proof.
  assert (filtered_columns [[("a", VInt 0); ("b", VInt 2)]] (Some ["a"; "b"])
          = Some ["b"]) as Hkept by (vm_compute; reflexivity).
  assert (["a"; "b"] ≠ []) as Hne by discriminate.
  split; [exact Hkept |].
  exact (proj1 (pruning_monotone [[("a", VInt 0); ("b", VInt 2)]] [[("a", VInt 1)]]
                  ["a"; "b"] ["b"] Hne Hkept)).
Defined.

(** ** The outcome of a render call *)

Lemma render_surface_witness :
  ∃ td s1,
    built scores_args = Ok td
    ∧ render scores_args fresh = (Ok tt, s1)
    ∧ painted_texts (canvas s1) = ["name"; "score"; "A"; "-"; "B"; "5"]
    ∧ last (canvas s1) = Some (Save FinalFile).
Proof.
  assert (∃ td, built scores_args = Ok td ∧ drawable td) as (td & Hbuilt & Hdrawable).
  { eexists. split; [vm_compute; reflexivity |].
    split; [discriminate |]. split; [discriminate |]. vm_compute. discriminate. }
  exists td. eexists. split; [exact Hbuilt |].
  split; [exact (render_surface scores_args td fresh Hbuilt Hdrawable) |].
  vm_compute in Hbuilt. injection Hbuilt as <-. split; reflexivity.
Defined.

Lemma render_returns_only_drawable_witness :
  ∃ s1 td,
    render scores_args fresh = (Ok tt, s1)
    ∧ built scores_args = Ok td
    ∧ td_headers td ≠ [] ∧ td_data td ≠ [].
Proof.
  destruct (render scores_args fresh) as [[[] | e] s1] eqn:Hrun;
    [| vm_compute in Hrun; discriminate].
  destruct (render_returns_only_drawable scores_args fresh s1 Hrun)
    as (td & Hbuilt & Hheaders & Hdata & _).
  exists s1, td. split; [reflexivity |]. split; [exact Hbuilt |].
  split; [exact Hheaders | exact Hdata].
Defined.

Lemma create_table_failure_points_witness :
  td_headers {| td_headers := []; td_data := [["1"; "2"]] |} = []
  ∧ td_data {| td_headers := []; td_data := [["1"; "2"]] |} ≠ []
  ∧ table_cols {| td_headers := []; td_data := [["1"; "2"]] |} ≠ 0%Z
  ∧ _create_table {| td_headers := []; td_data := [["1"; "2"]] |} "" false None 150
      fresh
    = (Raise IndexError,
       {| gen := {| cell_width := Some 500%Z; cell_height := 125;
                    font_size := 50; fonts := 50 |};
          canvas := [NewImage 1002 127] |}).
Proof.
  assert (td_data {| td_headers := []; td_data := [["1"; "2"]] |} ≠ []) as Hdata
    by discriminate.
  assert (table_cols {| td_headers := []; td_data := [["1"; "2"]] |} ≠ 0%Z) as Hcols
    by (vm_compute; discriminate).
  split; [reflexivity |]. split; [exact Hdata |]. split; [exact Hcols |].
  exact (proj2 (proj2 (create_table_failure_points
                         {| td_headers := []; td_data := [["1"; "2"]] |}
                         "" false None fresh))
           eq_refl Hdata Hcols).
Defined.

Lemma render_without_column_order_witness :
  seq_truthy (a_columns_order unordered_args) = false
  ∧ ∃ e s1, render unordered_args fresh = (Raise e, s1).
Proof.
  split; [reflexivity |].
  exact (proj2 (render_without_column_order unordered_args fresh eq_refl)).
Defined.

(** ** Grid geometry *)

Lemma width_within_target_witness :
  ∃ size s1,
    _calculate_table_size [[Some (Cell_of_text "name"); Some (Cell_of_text "score")]]
      [["A"; "-"]] fresh = (Ok size, s1)
    ∧ size.1 = 481%Z.
Proof.
  eexists _, _. split; [vm_compute; reflexivity |].
  refine (proj1 (proj2 (width_within_target
                          [[Some (Cell_of_text "name"); Some (Cell_of_text "score")]]
                          [["A"; "-"]] fresh _ _ eq_refl)) _).
  vm_compute. discriminate.
Defined.

End FurtherExamples.
